(** * conference-tracker: the SSRN scraper's extraction and merge engine

    A shallow embedding of [ssrn_scraper.py]: the entry filter, the date
    parsers, the deadline and conference-date cascades, the country and
    discipline detectors, the record merger and the four run modes, followed
    by the properties that the specification states about them.

    Conventions of the embedding.
    - A Python [str] is a [string]; the development speaks about ASCII text:
      a byte above 127 is no digit, no letter and no white space here.
    - A [dict] used as a record ([ConferenceRecord], [ScrapedEntry]) is a
      Rocq record; a key read with [.get(k, d)] and missing is represented by
      [d], a key read with [.get(k)] and missing or [None] by the empty
      string, unless the code tells the two apart, in which case the field
      is an [option].
    - The store [existing] is a [list]; [existing_by_sid] is a [gmap] from
      the sid to the position of the record in [existing], because the
      Python dictionary holds references to the very objects of the list.
    - Exceptions are values of [result]; the wall clock read by
      [date.today()] is an argument named [today]. *)

From Stdlib Require Import ZArith NArith String Ascii List Lia DecimalString Sorted.
From stdpp Require Import base option list gmap strings.

Local Open Scope string_scope.
Local Open Scope list_scope.

(** ** Python strings *)

Module Py.

Definition code (c : ascii) : N := N_of_ascii c.

Definition isdigit (c : ascii) : bool := ((48 <=? code c) && (code c <=? 57))%N.
Definition isupper (c : ascii) : bool := ((65 <=? code c) && (code c <=? 90))%N.
Definition islower (c : ascii) : bool := ((97 <=? code c) && (code c <=? 122))%N.

(** [\w] on ASCII: letters, digits and the underscore. *)
Definition isword (c : ascii) : bool :=
  isdigit c || isupper c || islower c || (code c =? 95)%N.

(** [str.isspace] on ASCII: TAB, LF, VT, FF, CR, the four separators
    0x1c..0x1f and the blank. *)
Definition isspace (c : ascii) : bool :=
  (((9 <=? code c) && (code c <=? 13)) || ((28 <=? code c) && (code c <=? 32)))%N.

Definition lower_char (c : ascii) : ascii :=
  if isupper c then ascii_of_N (code c + 32) else c.

(** [s.lower()] *)
Fixpoint lower (s : string) : string :=
  match s with
  | EmptyString => EmptyString
  | String c s' => String (lower_char c) (lower s')
  end.

(** [s.startswith(p)] *)
Fixpoint startswith (s p : string) : bool :=
  match p, s with
  | EmptyString, _ => true
  | String a p', String b s' => if Ascii.eqb a b then startswith s' p' else false
  | String _ _, EmptyString => false
  end.

(** [sub in s] *)
Fixpoint contains (sub s : string) : bool :=
  startswith s sub ||
  match s with
  | EmptyString => false
  | String _ s' => contains sub s'
  end.

(** [s[:n]] *)
Fixpoint take (n : nat) (s : string) : string :=
  match n, s with
  | S n', String c s' => String c (take n' s')
  | _, _ => EmptyString
  end.

Fixpoint rev_onto (s acc : string) : string :=
  match s with
  | EmptyString => acc
  | String c s' => rev_onto s' (String c acc)
  end.

Definition rev (s : string) : string := rev_onto s EmptyString.

Fixpoint lstrip_by (p : ascii -> bool) (s : string) : string :=
  match s with
  | String c s' => if p c then lstrip_by p s' else s
  | EmptyString => EmptyString
  end.

Definition rstrip_by (p : ascii -> bool) (s : string) : string :=
  rev (lstrip_by p (rev s)).

(** [s.strip()] *)
Definition strip (s : string) : string := rstrip_by isspace (lstrip_by isspace s).

(** [s.rstrip(".")] *)
Definition rstrip_dot (s : string) : string := rstrip_by (Ascii.eqb ".") s.

(** [s.replace(".", "")] *)
Fixpoint remove_dots (s : string) : string :=
  match s with
  | EmptyString => EmptyString
  | String c s' => if Ascii.eqb c "." then remove_dots s' else String c (remove_dots s')
  end.

(** [s.endswith(suf)] *)
Definition endswith (s suf : string) : bool := startswith (rev s) (rev suf).

(** Truth value of a string: [if s:] *)
Definition truthy (s : string) : bool :=
  match s with EmptyString => false | _ => true end.

Fixpoint all_digits (s : string) : bool :=
  match s with
  | EmptyString => true
  | String c s' => isdigit c && all_digits s'
  end.

(** [int(s)] for the strings this program hands it: a non-empty run of
    decimal digits gives its value, anything else is [None] (Python raises
    [ValueError]). The strings converted here start with a digit, so the
    signs, blanks and underscores that [int] tolerates never reach it. *)
Definition int (s : string) : option Z :=
  if truthy s && all_digits s then
    match NilEmpty.uint_of_string s with
    | Some u => Some (Z.of_N (N.of_uint u))
    | None => None
    end
  else None.

(** [str(n)] of a non-negative integer; a negative one gets its sign. *)
Definition str (n : Z) : string :=
  match n with
  | Zneg p => String "-" (NilZero.string_of_uint (N.to_uint (Npos p)))
  | _ => NilZero.string_of_uint (N.to_uint (Z.to_N n))
  end.

(** [f"{n:02d}"] for [0 <= n]: zero-padded to two digits. *)
Definition fmt02 (n : Z) : string :=
  if (0 <=? n)%Z && (n <? 10)%Z then String "0" (str n) else str n.

End Py.

(** ** Exceptions *)

Inductive exn : Type :=
  | ValueError
  | JSONDecodeError
  | ImportError.

Inductive result (A : Type) : Type :=
  | Ok (a : A)
  | Raise (e : exn).
Arguments Ok {A} a.
Arguments Raise {A} e.

Definition bind {A B : Type} (x : result A) (f : A -> result B) : result B :=
  match x with
  | Ok a => f a
  | Raise e => Raise e
  end.

Notation "x <- e1 ;; e2" := (bind e1 (fun x => e2))
  (at level 100, e1 at next level, right associativity).

(** ** Regular expressions, as Python's [re] runs the patterns of this program

    The patterns of the scraper are kept as the strings of the source and
    compiled by [compile]; the matcher is a backtracking matcher in
    continuation-passing style that explores the alternatives in the order
    of [re]: the left branch of [|] first, a greedy quantifier from the
    longest run down, a lazy one from the shortest run up. *)

Module Re.

(** One member of a character class. *)
Inductive citem : Type :=
  | IChar (a : ascii)
  | IDigit                       (* \d *)
  | IWord                        (* \w *)
  | ISpace.                      (* \s *)

(** Something that consumes exactly one character. *)
Inductive atom : Type :=
  | ADot                                         (* .  : all but newline *)
  | AItem (i : citem)                            (* a literal or \d \w \s *)
  | ASet (negated : bool) (items : list citem).  (* [...] and [^...] *)

Inductive regex : Type :=
  | REps
  | RAtom (a : atom)
  | RRep (a : atom) (lo : nat) (hi : option nat) (greedy : bool)
  | ROpt (r : regex)                             (* (?:...)? and (...)? *)
  | RSeq (r1 r2 : regex)
  | RAlt (r1 r2 : regex)
  | RGroup (n : nat) (r : regex)                 (* capturing group number n *)
  | RWordB                                       (* \b *)
  | RBol                                         (* ^ *)
  | RFail.                                       (* a pattern [compile] rejects *)

(** The flags of a call: [re.IGNORECASE], [re.MULTILINE]. *)
Record flags : Type := { ignorecase : bool; multiline : bool }.

Definition NOFLAG : flags := {| ignorecase := false; multiline := false |}.
Definition IGNORECASE : flags := {| ignorecase := true; multiline := false |}.
Definition IGNORECASE_MULTILINE : flags := {| ignorecase := true; multiline := true |}.

Definition newline : ascii := ascii_of_N 10.

Definition item_matches (fl : flags) (i : citem) (c : ascii) : bool :=
  match i with
  | IChar a =>
      if ignorecase fl then Ascii.eqb (Py.lower_char a) (Py.lower_char c)
      else Ascii.eqb a c
  | IDigit => Py.isdigit c
  | IWord => Py.isword c
  | ISpace => Py.isspace c
  end.

Definition atom_matches (fl : flags) (a : atom) (c : ascii) : bool :=
  match a with
  | ADot => negb (Ascii.eqb c newline)
  | AItem i => item_matches fl i c
  | ASet neg items => xorb neg (existsb (fun i => item_matches fl i c) items)
  end.

(** Captures: group number and captured text, the latest binding first. *)
Definition caps : Type := list (nat * string).

Fixpoint group (n : nat) (cs : caps) : option string :=
  match cs with
  | [] => None
  | (k, s) :: cs' => if Nat.eqb k n then Some s else group n cs'
  end.

(** The text consumed between the suffix [s] and its own suffix [s']. *)
Definition consumed (s s' : string) : string :=
  Py.take (String.length s - String.length s') s.

Definition is_word_opt (c : option ascii) : bool :=
  match c with Some a => Py.isword a | None => false end.

Definition head (s : string) : option ascii :=
  match s with String c _ => Some c | EmptyString => None end.

Section Matcher.
Context (fl : flags) {R : Type}.

(** A continuation gets the rest of the text, the character before it and
    the captures so far. *)
Definition cont : Type := string -> option ascii -> caps -> option R.

Definition hi_allows (hi : option nat) : bool :=
  match hi with Some 0 => false | _ => true end.

Definition hi_pred (hi : option nat) : option nat :=
  match hi with Some n => Some (pred n) | None => None end.

(** [a{lo,hi}] and its lazy form, by recursion on the text. *)
Fixpoint rep (a : atom) (lo : nat) (hi : option nat) (greedy : bool)
    (s : string) (prev : option ascii) (cs : caps) (k : cont) {struct s} : option R :=
  match lo with
  | S lo' =>
      match s with
      | String c s' =>
          if atom_matches fl a c && hi_allows hi
          then rep a lo' (hi_pred hi) greedy s' (Some c) cs k
          else None
      | EmptyString => None
      end
  | O =>
      match s with
      | String c s' =>
          if atom_matches fl a c && hi_allows hi then
            if greedy then
              match rep a O (hi_pred hi) greedy s' (Some c) cs k with
              | Some r => Some r
              | None => k s prev cs
              end
            else
              match k s prev cs with
              | Some r => Some r
              | None => rep a O (hi_pred hi) greedy s' (Some c) cs k
              end
          else k s prev cs
      | EmptyString => k s prev cs
      end
  end.

Fixpoint run (r : regex) (s : string) (prev : option ascii) (cs : caps)
    (k : cont) {struct r} : option R :=
  match r with
  | REps => k s prev cs
  | RAtom a =>
      match s with
      | String c s' => if atom_matches fl a c then k s' (Some c) cs else None
      | EmptyString => None
      end
  | RRep a lo hi greedy => rep a lo hi greedy s prev cs k
  | ROpt r1 =>
      match run r1 s prev cs k with
      | Some x => Some x
      | None => k s prev cs
      end
  | RSeq r1 r2 => run r1 s prev cs (fun s' prev' cs' => run r2 s' prev' cs' k)
  | RAlt r1 r2 =>
      match run r1 s prev cs k with
      | Some x => Some x
      | None => run r2 s prev cs k
      end
  | RGroup n r1 =>
      run r1 s prev cs (fun s' prev' cs' => k s' prev' ((n, consumed s s') :: cs'))
  | RWordB =>
      if xorb (is_word_opt prev) (is_word_opt (head s)) then k s prev cs else None
  | RBol =>
      match prev with
      | None => k s prev cs
      | Some c => if multiline fl && Ascii.eqb c newline then k s prev cs else None
      end
  | RFail => None
  end.
End Matcher.

(** [re.match(r, s)]: a match that starts at the first character. *)
Definition rmatch (fl : flags) (r : regex) (s : string) : option caps :=
  run fl r s None [] (fun _ _ cs => Some cs).

(** [re.search(r, s)]: the leftmost position where a match starts. *)
Fixpoint search_from (fl : flags) (r : regex) (s : string) (prev : option ascii)
    : option caps :=
  match run fl r s prev [] (fun _ _ cs => Some cs) with
  | Some cs => Some cs
  | None =>
      match s with
      | String c s' => search_from fl r s' (Some c)
      | EmptyString => None
      end
  end.

Definition search (fl : flags) (r : regex) (s : string) : option caps :=
  search_from fl r s None.

(** *** Reading a pattern *)

Definition digit_val (c : ascii) : nat := N.to_nat (Py.code c - 48).

(** A run of digits at the head of [s]: its value and the rest. *)
Fixpoint read_nat (s : string) (acc : nat) : nat * string :=
  match s with
  | String c s' => if Py.isdigit c then read_nat s' (10 * acc + digit_val c) else (acc, s)
  | EmptyString => (acc, s)
  end.

(** The quantifier at the head of [s], if there is one: bounds, greediness
    and the rest of the pattern. *)
Definition read_quant (s : string) : option (nat * option nat * bool * string) :=
  let lazy (q : nat * option nat) (rest : string) :=
    match rest with
    | String "?" rest' => Some (q, false, rest')
    | _ => Some (q, true, rest)
    end in
  match s with
  | String "+" s' => lazy (1, None) s'
  | String "*" s' => lazy (0, None) s'
  | String "?" s' => lazy (0, Some 1) s'
  | String "{" s' =>
      let '(lo, s1) := read_nat s' 0 in
      match s1 with
      | String "}" s2 => lazy (lo, Some lo) s2
      | String "," (String "}" s2) => lazy (lo, None) s2
      | String "," s2 =>
          let '(hi, s3) := read_nat s2 0 in
          match s3 with
          | String "}" s4 => lazy (lo, Some hi) s4
          | _ => None
          end
      | _ => None
      end
  | _ => None
  end.

(** An escape [\c]: a class, or the character itself when it is no letter
    or digit ([\n] is the newline). *)
Definition read_escape (c : ascii) : option citem :=
  if Ascii.eqb c "d" then Some IDigit
  else if Ascii.eqb c "w" then Some IWord
  else if Ascii.eqb c "s" then Some ISpace
  else if Ascii.eqb c "n" then Some (IChar newline)
  else if Py.isword c then None
  else Some (IChar c).

(** The members of a class up to its closing bracket. A hyphen stands for
    itself at either end of the class; a range is not read. *)
Fixpoint read_class (s : string) (first : bool) (acc : list citem)
    : option (list citem * string) :=
  match s with
  | String "]" s' => if first then None else Some (List.rev acc, s')
  | String "\" (String c s') =>
      match read_escape c with
      | Some i => read_class s' false (i :: acc)
      | None => None
      end
  | String "-" s' =>
      match s' with
      | String "]" _ => read_class s' false (IChar "-" :: acc)
      | _ => if first then read_class s' false (IChar "-" :: acc) else None
      end
  | String c s' => read_class s' false (IChar c :: acc)
  | EmptyString => None
  end.

Definition is_special (c : ascii) : bool :=
  existsb (Ascii.eqb c) ["$"; "*"; "+"; "?"; "{"; "}"; "]"; ")"; "|"]%char.

(** Alternation, sequence and quantified piece; [g] counts the capturing
    groups opened so far. *)
Fixpoint parse_alt (fuel : nat) (s : string) (g : nat) : option (regex * string * nat) :=
  match fuel with
  | O => None
  | S fuel' =>
      match parse_seq fuel' s g with
      | Some (r1, String "|" s1, g1) =>
          match parse_alt fuel' s1 g1 with
          | Some (r2, s2, g2) => Some (RAlt r1 r2, s2, g2)
          | None => None
          end
      | other => other
      end
  end
with parse_seq (fuel : nat) (s : string) (g : nat) : option (regex * string * nat) :=
  match fuel with
  | O => None
  | S fuel' =>
      match s with
      | EmptyString | String ")" _ | String "|" _ => Some (REps, s, g)
      | _ =>
          match parse_piece fuel' s g with
          | Some (r1, s1, g1) =>
              match parse_seq fuel' s1 g1 with
              | Some (REps, s2, g2) => Some (r1, s2, g2)
              | Some (r2, s2, g2) => Some (RSeq r1 r2, s2, g2)
              | None => None
              end
          | None => None
          end
      end
  end
with parse_piece (fuel : nat) (s : string) (g : nat) : option (regex * string * nat) :=
  let one (a : atom) (rest : string) :=
    match read_quant rest with
    | Some (lo, hi, greedy, rest') => Some (RRep a lo hi greedy, rest', g)
    | None => Some (RAtom a, rest, g)
    end in
  let grouped (r : regex) (rest : string) (g' : nat) :=
    match rest with
    | String ")" rest1 =>
        match read_quant rest1 with
        | Some (0, Some 1, true, rest2) => Some (ROpt r, rest2, g')
        | Some _ => None
        | None => Some (r, rest1, g')
        end
    | _ => None
    end in
  match fuel with
  | O => None
  | S fuel' =>
      match s with
      | String "(" (String "?" (String ":" s1)) =>
          match parse_alt fuel' s1 g with
          | Some (r, s2, g') => grouped r s2 g'
          | None => None
          end
      | String "(" s1 =>
          match parse_alt fuel' s1 (S g) with
          | Some (r, s2, g') => grouped (RGroup (S g) r) s2 g'
          | None => None
          end
      | String "[" (String "^" s1) =>
          match read_class s1 true [] with
          | Some (items, s2) => one (ASet true items) s2
          | None => None
          end
      | String "[" s1 =>
          match read_class s1 true [] with
          | Some (items, s2) => one (ASet false items) s2
          | None => None
          end
      | String "\" (String "b" s1) => Some (RWordB, s1, g)
      | String "\" (String c s1) =>
          match read_escape c with
          | Some i => one (AItem i) s1
          | None => None
          end
      | String "." s1 => one ADot s1
      | String "^" s1 => Some (RBol, s1, g)
      | String c s1 => if is_special c then None else one (AItem (IChar c)) s1
      | EmptyString => None
      end
  end.

(** [re.compile(p)]; a pattern outside the fragment above becomes [RFail]. *)
Definition compile (p : string) : regex :=
  match parse_alt (3 * String.length p + 3) p 0 with
  | Some (r, EmptyString, _) => r
  | _ => RFail
  end.

Fixpoint well_formed (r : regex) : bool :=
  match r with
  | RFail => false
  | ROpt r1 | RGroup _ r1 => well_formed r1
  | RSeq r1 r2 | RAlt r1 r2 => well_formed r1 && well_formed r2
  | _ => true
  end.

End Re.

(** ** Configuration and the entry filter *)

Definition NON_CONFERENCE_KEYWORDS : list string := [
  "prize"; "award"; "ph.d."; "phd in "; "professorship"; "assistant professor";
  "finance theory insights"; "data grant"; "sbur collection";
  "farfe awards"; "pre-announcments:"; "ecomod school";
  "calling scholars interested"; "call for registration";
  "multinational finance journal"; "fully funded";
  "research programme"; "research program"; "monetary research";
  "call for proposals"; "call for applications"; "call for nominations";
  "call for research projects"; "dissertation proposal"; "dissertation grant";
  "doctoral internship"; "doctoral colloquium";
  "hackathon"; "webinar"; "student research competition";
  "postdoctoral"; "postdoc "; "research associate";
  "memorial prize"; "memorial award";
  "graduate programme"; "graduate program";
  "advances in econometrics volume"; "bayesian macroeconometrics";
  "estimating the impact of"; "education policy hackathon";
  "open-bid applied research"; "data science summer school";
  "corporate governance summer school"; "lse corporate governance summer";
  "call for papers:"; "call for papers!";
  "now accepting submissions"; "research grants provided by"
].

Definition NON_CONFERENCE_EXACT : list string := [
  "summer school";
  "call for job market paper"
].

Definition CONFERENCE_SAFELIST : list string := [
  "annual meeting"; "annual conference"; "midyear meeting";
  "finance conference"; "accounting conference"; "economics conference";
  "annual congress"; "winter finance"; "research conference";
  "workshop"; "symposium"; "forum"; "summit"
].

(** The inner loop of [is_non_conference]: [False] at the first safelist
    phrase found in the name, [True] when the list is exhausted. *)
Fixpoint safelist_loop (safelist : list string) (name_lower : string) : bool :=
  match safelist with
  | [] => true
  | safe :: rest => if Py.contains safe name_lower then false else safelist_loop rest name_lower
  end.

(** The second loop of [is_non_conference]. *)
Fixpoint exact_loop (exact : list string) (name_lower : string) : bool :=
  match exact with
  | [] => false
  | kw :: rest =>
      if Py.contains kw name_lower && negb (Py.contains "conference" name_lower)
      then true
      else exact_loop rest name_lower
  end.

(** The first loop of [is_non_conference], which returns at the first
    keyword found and falls through to the second loop otherwise. *)
Fixpoint keyword_loop (keywords : list string) (name_lower : string) : bool :=
  match keywords with
  | [] => exact_loop NON_CONFERENCE_EXACT name_lower
  | kw :: rest =>
      if Py.contains kw name_lower
      then safelist_loop CONFERENCE_SAFELIST name_lower
      else keyword_loop rest name_lower
  end.

(** [True] means the item is dropped, [False] that it is kept. *)
Definition is_non_conference (name : string) : bool :=
  let name_lower := Py.lower name in
  keyword_loop NON_CONFERENCE_KEYWORDS name_lower.

(** ** Date parsing *)

Definition MONTH_MAP : gmap string Z := list_to_map [
  ("jan", 1); ("january", 1); ("feb", 2); ("february", 2); ("mar", 3); ("march", 3);
  ("apr", 4); ("april", 4); ("may", 5); ("jun", 6); ("june", 6);
  ("jul", 7); ("july", 7); ("aug", 8); ("august", 8); ("sep", 9); ("september", 9);
  ("oct", 10); ("october", 10); ("nov", 11); ("november", 11); ("dec", 12); ("december", 12)
]%Z.

(** [m.group(n)] of a group that takes part in every match of its pattern,
    which holds for each group this program reads. *)
Definition grp (n : nat) (m : Re.caps) : string := default "" (Re.group n m).

(** [int(m.group(n))] for a group that is a run of digits. *)
Definition int_grp (n : nat) (m : Re.caps) : Z := default 0%Z (Py.int (grp n m)).

(** [MONTH_MAP.get(word.lower()[:3])]; every value of the table is
    non-zero, so [if month:] asks whether the key was found. *)
Definition month_of (word : string) : option Z :=
  MONTH_MAP !! Py.take 3 (Py.lower word).

(** [f"{y}-{m:02d}-{d:02d}"] *)
Definition iso (y m d : Z) : string :=
  Py.str y +:+ "-" +:+ Py.fmt02 m +:+ "-" +:+ Py.fmt02 d.

Definition orelse {A : Type} (x : option A) (y : option A) : option A :=
  match x with Some a => Some a | None => y end.

Definition parse_date_flexible (text : string) : option string :=
  if negb (Py.truthy text) then None else
  let text := Py.remove_dots (Py.rstrip_dot (Py.strip text)) in
  match Re.rmatch Re.NOFLAG (Re.compile "(\d{4})-(\d{2})-(\d{2})") text with
  | Some _ => Some (Py.take 10 text)
  | None =>
  match Re.rmatch Re.NOFLAG (Re.compile "(\d{1,2})/(\d{1,2})/(\d{4})") text with
  | Some m => Some (iso (int_grp 3 m) (int_grp 1 m) (int_grp 2 m))
  | None =>
  orelse
    match Re.rmatch Re.NOFLAG (Re.compile "(\w+)\s+(\d{1,2})(?:st|nd|rd|th)?,?\s+(\d{4})") text with
    | Some m =>
        match month_of (grp 1 m) with
        | Some month => Some (iso (int_grp 3 m) month (int_grp 2 m))
        | None => None
        end
    | None => None
    end
    match Re.rmatch Re.NOFLAG (Re.compile "(\d{1,2})(?:st|nd|rd|th)?\s+(\w+),?\s+(\d{4})") text with
    | Some m =>
        match month_of (grp 2 m) with
        | Some month => Some (iso (int_grp 3 m) month (int_grp 1 m))
        | None => None
        end
    | None => None
    end
  end
  end.

(** The result is the pair [(start, display)]. *)
Definition parse_conf_dates (date_str : string) : string * string :=
  let date_str := Py.strip date_str in
  if negb (Py.truthy date_str) then ("", "") else
  let range :=
    match Re.rmatch Re.NOFLAG
            (Re.compile "(\d{1,2})\s+(\w+)\s+(\d{4})\s*-\s*(\d{1,2})\s+(\w+)\s+(\d{4})")
            date_str with
    | Some m =>
        let d1 := int_grp 1 m in let m1 := grp 2 m in let y1 := int_grp 3 m in
        let d2 := int_grp 4 m in let m2 := grp 5 m in
        match month_of m1, month_of m2 with
        | Some month1, Some _ =>
            let start := iso y1 month1 d1 in
            let display :=
              if String.eqb (Py.take 3 m1) (Py.take 3 m2)
              then Py.take 3 m1 +:+ " " +:+ Py.str d1 +:+ "-" +:+ Py.str d2
              else Py.take 3 m1 +:+ " " +:+ Py.str d1 +:+ " - " +:+ Py.take 3 m2 +:+ " " +:+ Py.str d2 in
            Some (start, display)
        | _, _ => None
        end
    | None => None
    end in
  let single :=
    match Re.rmatch Re.NOFLAG (Re.compile "(\d{1,2})\s+(\w+)\s+(\d{4})") date_str with
    | Some m =>
        let d1 := int_grp 1 m in let m1 := grp 2 m in let y1 := int_grp 3 m in
        match month_of m1 with
        | Some month1 => Some (iso y1 month1 d1, Py.take 3 m1 +:+ " " +:+ Py.str d1)
        | None => None
        end
    | None => None
    end in
  match range with
  | Some r => r
  | None =>
      match single with
      | Some r => r
      | None => ("", date_str)
      end
  end.

(** ** Deadline extraction *)

Definition DEADLINE_PATTERNS : list string := [
  "[Ss]ubmission\s+[Dd]eadline[:\s]+(?:[^,\n]{0,40}?,\s*)?(\w+\s+\d{1,2},?\s+\d{4})";
  "[Ss]ubmission\s+[Dd]eadline[:\s]+(?:[^,\n]{0,40}?,\s*)?(\d{1,2}(?:st|nd|rd|th)?\s+\w+,?\s+\d{4})";
  "submission\s+deadline\s+is\s+(?:(?:Monday|Tuesday|Wednesday|Thursday|Friday|Saturday|Sunday),?\s+)?(?:[^,\n]{0,40}?,\s*)?(\w+\s+\d{1,2},?\s+\d{4})";
  "submission\s+deadline\s+is\s+(?:(?:Monday|Tuesday|Wednesday|Thursday|Friday|Saturday|Sunday),?\s+)?(?:[^,\n]{0,40}?,\s*)?(\d{1,2}(?:st|nd|rd|th)?\s+\w+,?\s+\d{4})";
  "[Dd]eadline[:\s]+(?:[^,\n]{0,40}?,\s*)?(\w+\s+\d{1,2},?\s+\d{4})";
  "[Dd]eadline[:\s]+(?:[^,\n]{0,40}?,\s*)?(\d{1,2}(?:st|nd|rd|th)?\s+\w+,?\s+\d{4})";
  "[Dd]eadline[:\s]+(?:[^,\n]{0,40}?,\s*)?(\d{1,2}/\d{1,2}/\d{4})";
  "[Dd]eadline[:\s]+(?:[^,\n]{0,40}?,\s*)?(\d{4}-\d{2}-\d{2})";
  "submit\s+(?:papers?|manuscripts?)\s+by\s+(?:[^,\n]{0,40}?,\s*)?(\w+\s+\d{1,2},?\s+\d{4})";
  "submit\s+(?:papers?|manuscripts?)\s+by\s+(?:[^,\n]{0,40}?,\s*)?(\d{1,2}(?:st|nd|rd|th)?\s+\w+,?\s+\d{4})";
  "submitted?\s+by\s+(?:[^,\n]{0,40}?,\s*)?(\w+\s+\d{1,2},?\s+\d{4})";
  "submitted?\s+by\s+(?:[^,\n]{0,40}?,\s*)?(\d{1,2}(?:st|nd|rd|th)?\s+\w+,?\s+\d{4})";
  "due\s+(?:by|on)\s+(?:[^,\n]{0,40}?,\s*)?(\w+\s+\d{1,2},?\s+\d{4})";
  "due\s+(?:by|on)\s+(?:[^,\n]{0,40}?,\s*)?(\d{1,2}(?:st|nd|rd|th)?\s+\w+,?\s+\d{4})";
  "no\s+later\s+than\s+(?:[^,\n]{0,40}?,\s*)?(\d{1,2}(?:st|nd|rd|th)?\s+\w+,?\s+\d{4})";
  "no\s+later\s+than\s+(?:[^,\n]{0,40}?,\s*)?(\w+\s+\d{1,2},?\s+\d{4})";
  "before\s+(\w+\s+\d{1,2},?\s+\d{4})";
  "before\s+(\d{1,2}(?:st|nd|rd|th)?\s+\w+,?\s+\d{4})";
  "[Dd]eadline\s+for\s+\w+\s+is\s+(?:[^,\n]{0,40}?,\s*)?(\w+\s+\d{1,2}(?:st|nd|rd|th)?,?\s+\d{4})";
  "[Dd]eadline\s+for\s+\w+\s+is\s+(?:[^,\n]{0,40}?,\s*)?(\d{1,2}(?:st|nd|rd|th)?\s+\w+,?\s+\d{4})";
  "\bby\s+(?:(?:Monday|Tuesday|Wednesday|Thursday|Friday|Saturday|Sunday),?\s+)?(\w+\.?\s+\d{1,2}(?:st|nd|rd|th)?,?\s+\d{4})";
  "\bby\s+(?:(?:Monday|Tuesday|Wednesday|Thursday|Friday|Saturday|Sunday),?\s+)?(\d{1,2}(?:st|nd|rd|th)?\s+\w+,?\s+\d{4})";
  "\bby\s+(?:(?:Monday|Tuesday|Wednesday|Thursday|Friday|Saturday|Sunday),?\s+)?(\w{3,9}\.?\s+\d{1,2}\s+\d{4})";
  "\bon\s+(\d{1,2}(?:st|nd|rd|th)?\s+\w+,?\s+\d{4})";
  "\bon\s+(\w+\s+\d{1,2}(?:st|nd|rd|th)?,?\s+\d{4})";
  "\b(?:until|through)\s+(?:(?:the\s+)?(?:Monday|Tuesday|Wednesday|Thursday|Friday|Saturday|Sunday),?\s+)?(?:[^,\n]{0,40}?,\s*)?(\w+\s+\d{1,2}(?:st|nd|rd|th)?,?\s+\d{4})";
  "\b(?:until|through)\s+(?:(?:Monday|Tuesday|Wednesday|Thursday|Friday|Saturday|Sunday),?\s+)?(\d{1,2}(?:st|nd|rd|th)?\s+\w+,?\s+\d{4})";
  "[Dd]ue[:\s]+(?:(?:Monday|Tuesday|Wednesday|Thursday|Friday|Saturday|Sunday),?\s+)?(\w+\s+\d{1,2}(?:st|nd|rd|th)?,?\s+\d{4})";
  "[Dd]ue[:\s]+(?:(?:Monday|Tuesday|Wednesday|Thursday|Friday|Saturday|Sunday),?\s+)?(\d{1,2}(?:st|nd|rd|th)?\s+\w+,?\s+\d{4})";
  "[Dd]eadline\s+of\s+(?:(?:Monday|Tuesday|Wednesday|Thursday|Friday|Saturday|Sunday),?\s+)?(\w+\s+\d{1,2}(?:st|nd|rd|th)?,?\s+\d{4})";
  "[Dd]eadline\s+of\s+(?:(?:Monday|Tuesday|Wednesday|Thursday|Friday|Saturday|Sunday),?\s+)?(\d{1,2}(?:st|nd|rd|th)?\s+\w+,?\s+\d{4})";
  "extended\s+to\s+(?:(?:Monday|Tuesday|Wednesday|Thursday|Friday|Saturday|Sunday),?\s+)?(\w+\s+\d{1,2}(?:st|nd|rd|th)?,?\s+\d{4})";
  "extended\s+to\s+(?:(?:Monday|Tuesday|Wednesday|Thursday|Friday|Saturday|Sunday),?\s+)?(\d{1,2}(?:st|nd|rd|th)?\s+\w+,?\s+\d{4})";
  "[Cc]losing.{0,30}?(\w+\s+\d{1,2}(?:st|nd|rd|th)?,?\s+\d{4})";
  "[Cc]losing.{0,30}?(\d{1,2}(?:st|nd|rd|th)?\s+\w+,?\s+\d{4})";
  "[Dd]eadline.{0,60}?(\w+\s+\d{1,2},\s+\d{4})";
  "[Dd]eadline.{0,60}?(\d{1,2}(?:st|nd|rd|th)?\s+\w+,?\s+\d{4})";
  "[Ss]ubmi.{0,60}?(\w+\s+\d{1,2}(?:st|nd|rd|th)?,\s+\d{4})";
  "[Ss]ubmi.{0,60}?(\d{1,2}(?:st|nd|rd|th)?\s+\w+,?\s+\d{4})";
  "(\w+\s+\d{1,2}(?:st|nd|rd|th)?\s+\d{4}).{0,40}?(?:[Cc]losing|[Dd]eadline)";
  "(\d{1,2}(?:st|nd|rd|th)?\s+\w+,?\s+\d{4}).{0,40}?(?:[Cc]losing|[Dd]eadline)"
].

Definition NO_YEAR_PATTERNS : list string := [
  "deadline\s+is\s+(?:(?:Monday|Tuesday|Wednesday|Thursday|Friday|Saturday|Sunday),?\s+)?(\d{1,2}(?:st|nd|rd|th)?\s+\w+)\b";
  "deadline\s+is\s+(?:(?:Monday|Tuesday|Wednesday|Thursday|Friday|Saturday|Sunday),?\s+)?(\w+\.?\s+\d{1,2}(?:st|nd|rd|th)?)\b";
  "(?:by|on|until|through|before)\s+(?:(?:Monday|Tuesday|Wednesday|Thursday|Friday|Saturday|Sunday),?\s+)?(\w+\.?\s+\d{1,2}(?:st|nd|rd|th)?)\b";
  "(?:by|on|until|through|before)\s+(?:(?:Monday|Tuesday|Wednesday|Thursday|Friday|Saturday|Sunday),?\s+)?(\d{1,2}(?:st|nd|rd|th)?\s+\w+)\b";
  "[Dd]eadline.{0,60}?(\w+\s+\d{1,2}(?:st|nd|rd|th)?)\b";
  "[Cc]losing.{0,30}?(\w+\s+\d{1,2}(?:st|nd|rd|th)?)\b";
  "[Dd]ue[:\s]+(?:(?:Monday|Tuesday|Wednesday|Thursday|Friday|Saturday|Sunday),?\s+)?(\w+\s+\d{1,2}(?:st|nd|rd|th)?)\b"
].

(** The wall clock: what [date.today()] returns. *)
Record date : Type := { year : Z; month : Z; day : Z }.

(** The plausibility window written into both cascades. *)
Definition in_window (y : Z) : bool := ((2025 <=? y) && (y <=? 2028))%Z.

(** The first loop of [extract_deadline_from_text], over the year-bearing
    patterns; [Ok None] when the loop ends without a [return]. *)
Fixpoint year_pass (patterns : list string) (text : string) : result (option string) :=
  match patterns with
  | [] => Ok None
  | pattern :: rest =>
      match Re.search Re.IGNORECASE (Re.compile pattern) text with
      | Some m =>
          match parse_date_flexible (grp 1 m) with
          | Some parsed =>
              match Py.int (Py.take 4 parsed) with
              | Some y => if in_window y then Ok (Some parsed) else year_pass rest text
              | None => Raise ValueError
              end
          | None => year_pass rest text
          end
      | None => year_pass rest text
      end
  end.

(** The loop over [try_year]: the first year whose completed string parses. *)
Fixpoint try_years (raw : string) (years : list Z) : option string :=
  match years with
  | [] => None
  | try_year :: rest =>
      let parsed :=
        orelse (parse_date_flexible (raw +:+ ", " +:+ Py.str try_year))
               (parse_date_flexible (raw +:+ " " +:+ Py.str try_year)) in
      match parsed with
      | Some p => Some p
      | None => try_years raw rest
      end
  end.

(** The second loop, over the patterns without a year. *)
Fixpoint no_year_pass (patterns : list string) (current_year : Z) (text : string)
    : option string :=
  match patterns with
  | [] => None
  | pattern :: rest =>
      match Re.search Re.IGNORECASE (Re.compile pattern) text with
      | Some m =>
          let raw := Py.rstrip_dot (Py.strip (grp 1 m)) in
          match try_years raw [current_year; current_year + 1; current_year - 1]%Z with
          | Some parsed => Some parsed
          | None => no_year_pass rest current_year text
          end
      | None => no_year_pass rest current_year text
      end
  end.

(** [today] is the value of [date.today()] at the call; the function has no
    other argument than [text] in the source. *)
Definition extract_deadline_from_text (today : date) (text : string)
    : result (option string) :=
  first <- year_pass DEADLINE_PATTERNS text ;;
  match first with
  | Some parsed => Ok (Some parsed)
  | None =>
      let current_year := year today in
      Ok (no_year_pass NO_YEAR_PATTERNS current_year text)
  end.

(** ** Country detection *)

Definition INTERNATIONAL_CITIES : list (string * string) := [
  ("London", "UK"); ("Oxford", "UK"); ("Cambridge", "UK"); ("Edinburgh", "UK");
  ("Manchester", "UK"); ("Durham", "UK"); ("Warwick", "UK"); ("Bristol", "UK");
  ("Leeds", "UK"); ("Exeter", "UK"); ("Bath", "UK"); ("Lancaster", "UK");
  ("Paris", "France"); ("Lyon", "France"); ("Toulouse", "France"); ("Megeve", "France");
  ("Corsica", "France"); ("Nice", "France");
  ("Berlin", "Germany"); ("Frankfurt", "Germany"); ("Munich", "Germany"); ("Mannheim", "Germany");
  ("Bonn", "Germany"); ("Halle", "Germany");
  ("Rome", "Italy"); ("Milan", "Italy"); ("Venice", "Italy"); ("Florence", "Italy");
  ("Bologna", "Italy"); ("Capri", "Italy"); ("Naples", "Italy"); ("Rimini", "Italy");
  ("Madrid", "Spain"); ("Barcelona", "Spain"); ("Bilbao", "Spain");
  ("Amsterdam", "Netherlands"); ("Rotterdam", "Netherlands"); ("Tilburg", "Netherlands");
  ("Maastricht", "Netherlands");
  ("Zurich", "Switzerland"); ("Geneva", "Switzerland"); ("Lausanne", "Switzerland");
  ("St. Gallen", "Switzerland"); ("Lugano", "Switzerland");
  ("Brussels", "Belgium"); ("Leuven", "Belgium");
  ("Copenhagen", "Denmark"); ("Lisbon", "Portugal");
  ("Athens", "Greece"); ("Stockholm", "Sweden"); ("Helsinki", "Finland");
  ("Dublin", "Ireland"); ("Oslo", "Norway"); ("Vienna", "Austria");
  ("Prague", "Czech Republic"); ("Warsaw", "Poland"); ("Budapest", "Hungary");
  ("Beijing", "China"); ("Shanghai", "China"); ("Hong Kong", "Hong Kong");
  ("Shenzhen", "China"); ("Xiamen", "China");
  ("Tokyo", "Japan"); ("Seoul", "South Korea"); ("Busan", "South Korea");
  ("Singapore", "Singapore"); ("Sydney", "Australia"); ("Melbourne", "Australia");
  ("Brisbane", "Australia"); ("Perth", "Australia");
  ("Mumbai", "India"); ("Bangalore", "India");
  ("Taipei", "Taiwan"); ("Bangkok", "Thailand"); ("Jakarta", "Indonesia");
  ("Toronto", "Canada"); ("Vancouver", "Canada"); ("Montreal", "Canada");
  ("Whistler", "Canada"); ("Calgary", "Canada"); ("Banff", "Canada");
  ("Bali", "Indonesia"); ("Dubai", "UAE"); ("Sharjah", "UAE");
  ("Reykjavik", "Iceland"); ("Vilnius", "Lithuania"); ("Tallinn", "Estonia");
  ("Tel Aviv", "Israel"); ("Haifa", "Israel");
  ("Hanoi", "Vietnam"); ("Ho Chi Minh", "Vietnam")
].

(** A [set] in the source; the only use asks whether some member matches,
    so the order of the enumeration is immaterial. *)
Definition US_STATES : list string := [
  "AL";"AK";"AZ";"AR";"CA";"CO";"CT";"DE";"FL";"GA";"HI";"ID";"IL";"IN";"IA";
  "KS";"KY";"LA";"ME";"MD";"MA";"MI";"MN";"MS";"MO";"MT";"NE";"NV";"NH";"NJ";
  "NM";"NY";"NC";"ND";"OH";"OK";"OR";"PA";"RI";"SC";"SD";"TN";"TX";"UT";"VT";
  "VA";"WA";"WV";"WI";"WY";"DC"
].

Definition country_keywords : list (string * string) := [
  ("United Kingdom", "UK"); ("United States", "USA"); ("Australia", "Australia");
  ("Canada", "Canada"); ("China", "China"); ("Japan", "Japan"); ("Germany", "Germany");
  ("France", "France"); ("Italy", "Italy"); ("Spain", "Spain"); ("India", "India");
  ("Singapore", "Singapore"); ("South Korea", "South Korea"); ("Brazil", "Brazil");
  ("Switzerland", "Switzerland"); ("Netherlands", "Netherlands");
  ("Sweden", "Sweden"); ("Denmark", "Denmark"); ("Finland", "Finland"); ("Norway", "Norway");
  ("Ireland", "Ireland"); ("Portugal", "Portugal"); ("Greece", "Greece");
  ("Israel", "Israel"); ("UAE", "UAE"); ("Saudi Arabia", "Saudi Arabia");
  ("Turkey", "Turkey"); ("Indonesia", "Indonesia"); ("Thailand", "Thailand");
  ("Taiwan", "Taiwan"); ("Vietnam", "Vietnam"); ("New Zealand", "New Zealand");
  ("Czech Republic", "Czech Republic"); ("Poland", "Poland"); ("Hungary", "Hungary");
  ("Austria", "Austria"); ("Belgium", "Belgium"); ("Korea", "South Korea");
  ("Mexico", "Mexico"); ("Chile", "Chile"); ("Iceland", "Iceland")
].

(** [for key, country in table.items(): if key.lower() in loc.lower(): return country]
    over a dictionary in its insertion order. *)
Fixpoint first_keyword (table : list (string * string)) (loc : string) : option string :=
  match table with
  | [] => None
  | (keyword, country) :: rest =>
      if Py.contains (Py.lower keyword) (Py.lower loc) then Some country
      else first_keyword rest loc
  end.

Definition is_match (m : option Re.caps) : bool :=
  match m with Some _ => true | None => false end.

Definition detect_country (location : string) : string :=
  if negb (Py.truthy location) then "Unknown" else
  let loc := Py.strip location in
  match first_keyword country_keywords loc with
  | Some country => country
  | None =>
  match first_keyword INTERNATIONAL_CITIES loc with
  | Some country => country
  | None =>
      if existsb (fun state =>
                    is_match (Re.search Re.NOFLAG (Re.compile ("\b" +:+ state +:+ "\b")) loc))
                 US_STATES
      then "USA"
      else if is_match (Re.search Re.IGNORECASE
                          (Re.compile "\b(virtual|online|zoom|remote)\b") loc)
      then "Virtual"
      else "Unknown"
  end
  end.

(** ** Disciplines *)

(** [discs.add(d)] on a set kept as a duplicate-free list. *)
Definition set_add (d : string) (discs : list string) : list string :=
  if existsb (String.eqb d) discs then discs else discs ++ [d].

Definition set_mem (d : string) (discs : list string) : bool :=
  existsb (String.eqb d) discs.

Fixpoint insert_sorted (d : string) (l : list string) : list string :=
  match l with
  | [] => [d]
  | x :: l' => if String.leb d x then d :: l else x :: insert_sorted d l'
  end.

(** [sorted(discs)]: strings in the order of their code points. *)
Definition sorted (discs : list string) : list string :=
  fold_right insert_sorted [] discs.

Definition detect_disciplines (category name : string) : list string :=
  let discs : list string := [] in
  let cat := Py.lower category in
  let nm := Py.lower name in
  let discs := if Py.contains "finance" cat then set_add "fin" discs else discs in
  let discs := if Py.contains "accounting" cat then set_add "acct" discs else discs in
  let discs := if Py.contains "economics" cat || Py.contains "econ" cat
               then set_add "econ" discs else discs in
  let discs := if Py.contains "accounting" nm && negb (set_mem "acct" discs)
               then set_add "acct" discs else discs in
  let discs := if existsb (fun w => Py.contains w nm) ["economics"; "economic"; "macroeconom"]
                  && negb (set_mem "econ" discs)
               then set_add "econ" discs else discs in
  let discs := if Py.contains "finance" nm && negb (set_mem "fin" discs)
               then set_add "fin" discs else discs in
  match discs with
  | [] => ["fin"]
  | _ => sorted discs
  end.

(** ** Conference dates *)

Definition CONF_DATE_PATTERNS : list string := [
  "[Cc]onference\s+[Dd]ates?\s*[:\-]\s*(\d{1,2}(?:st|nd|rd|th)?\s+\w+\s+\d{4}(?:\s*[-–]\s*\d{1,2}(?:st|nd|rd|th)?\s+\w+\s+\d{4})?)";
  "[Cc]onference\s+[Dd]ates?\s*[:\-]\s*(\w+\s+\d{1,2}(?:st|nd|rd|th)?(?:\s*[-–]\s*\d{1,2}(?:st|nd|rd|th)?)?,?\s+\d{4})";
  "[Dd]ates?\s+of\s+(?:the\s+)?[Cc]onference\s*[:\-]\s*(\d{1,2}(?:st|nd|rd|th)?\s+\w+\s+\d{4}(?:\s*[-–]\s*\d{1,2}(?:st|nd|rd|th)?\s+\w+\s+\d{4})?)";
  "[Dd]ates?\s+of\s+(?:the\s+)?[Cc]onference\s*[:\-]\s*(\w+\s+\d{1,2}(?:st|nd|rd|th)?(?:\s*[-–]\s*\d{1,2}(?:st|nd|rd|th)?)?,?\s+\d{4})";
  "(?:^|\n)\s*[Dd]ate\s*:\s*(\d{1,2}(?:st|nd|rd|th)?\s+\w+\s+\d{4}(?:\s*[-–]\s*\d{1,2}(?:st|nd|rd|th)?\s+\w+\s+\d{4})?)";
  "(?:^|\n)\s*[Dd]ate\s*:\s*(\w+\s+\d{1,2}(?:st|nd|rd|th)?(?:\s*[-–]\s*\d{1,2}(?:st|nd|rd|th)?)?,?\s+\d{4})";
  "(?:held|take[s]?\s+place)\s+(?:on\s+)?(\d{1,2}(?:st|nd|rd|th)?\s+\w+,?\s+\d{4})";
  "(?:held|take[s]?\s+place)\s+(?:on\s+)?(\w+\s+\d{1,2}(?:st|nd|rd|th)?,?\s+\d{4})";
  "(?:held|take[s]?\s+place)\s+(?:on\s+)?(\d{1,2}(?:st|nd|rd|th)?[-–]\d{1,2}(?:st|nd|rd|th)?\s+\w+,?\s+\d{4})";
  "(?:held|take[s]?\s+place)\s+(?:on\s+)?(\w+\s+\d{1,2}(?:st|nd|rd|th)?[-–]\d{1,2}(?:st|nd|rd|th)?,?\s+\d{4})";
  "scheduled\s+for\s+(\w+\s+\d{1,2}(?:st|nd|rd|th)?,?\s+\d{4})";
  "scheduled\s+for\s+(\d{1,2}(?:st|nd|rd|th)?\s+\w+,?\s+\d{4})"
].

(** The loop of [extract_conf_date_from_text]; the pair is
    [(start_date, display)] and [None] stands for [(None, None)]. *)
Fixpoint conf_date_pass (patterns : list string) (text : string)
    : result (option (string * string)) :=
  match patterns with
  | [] => Ok None
  | pattern :: rest =>
      match Re.search Re.IGNORECASE_MULTILINE (Re.compile pattern) text with
      | Some m =>
          let raw := Py.strip (grp 1 m) in
          let '(start_date, display) := parse_conf_dates raw in
          let '(start_date, display) :=
            if negb (Py.truthy start_date) then
              match parse_date_flexible raw with
              | Some start_date' => (start_date', raw)
              | None => ("", display)
              end
            else (start_date, display) in
          if Py.truthy start_date then
            match Py.int (Py.take 4 start_date) with
            | Some y =>
                if in_window y then Ok (Some (start_date, display))
                else conf_date_pass rest text
            | None => Raise ValueError
            end
          else conf_date_pass rest text
      | None => conf_date_pass rest text
      end
  end.

Definition extract_conf_date_from_text (text : string) : result (option (string * string)) :=
  conf_date_pass CONF_DATE_PATTERNS text.

(** ** The data model *)

(** A [ConferenceRecord] of the store. [c_sid] is [str(c.get("sid", ""))],
    the form in which every function of the scraper reads the key. *)
Record Conf : Type := mkConf {
  c_id : Z;
  c_name : string;
  c_dates : string;
  c_startDate : string;
  c_location : string;
  c_country : string;
  c_disc : list string;
  c_sid : string;
  c_ssrnLink : string;
  c_deadline : string;
  c_url : string;
  c_tier : string
}.

(** A [ScrapedEntry]. The three keys that the detail pass adds later are
    optional: [None] is a missing key. *)
Record Entry : Type := mkEntry {
  s_name : string;
  s_dates : string;
  s_location : string;
  s_posted : string;
  s_sid : string;
  s_category : string;
  s_ssrnLink : string;
  s_deadline : option string;
  s_conf_start : option string;
  s_conf_display : option string
}.

Definition set_deadline (v : string) (c : Conf) : Conf :=
  mkConf (c_id c) (c_name c) (c_dates c) (c_startDate c) (c_location c) (c_country c)
         (c_disc c) (c_sid c) (c_ssrnLink c) v (c_url c) (c_tier c).

Definition set_startDate (v : string) (c : Conf) : Conf :=
  mkConf (c_id c) (c_name c) (c_dates c) v (c_location c) (c_country c)
         (c_disc c) (c_sid c) (c_ssrnLink c) (c_deadline c) (c_url c) (c_tier c).

Definition set_dates (v : string) (c : Conf) : Conf :=
  mkConf (c_id c) (c_name c) v (c_startDate c) (c_location c) (c_country c)
         (c_disc c) (c_sid c) (c_ssrnLink c) (c_deadline c) (c_url c) (c_tier c).

Definition set_location (v : string) (c : Conf) : Conf :=
  mkConf (c_id c) (c_name c) (c_dates c) (c_startDate c) v (c_country c)
         (c_disc c) (c_sid c) (c_ssrnLink c) (c_deadline c) (c_url c) (c_tier c).

Definition set_country (v : string) (c : Conf) : Conf :=
  mkConf (c_id c) (c_name c) (c_dates c) (c_startDate c) (c_location c) v
         (c_disc c) (c_sid c) (c_ssrnLink c) (c_deadline c) (c_url c) (c_tier c).

Definition set_disc (v : list string) (c : Conf) : Conf :=
  mkConf (c_id c) (c_name c) (c_dates c) (c_startDate c) (c_location c) (c_country c)
         v (c_sid c) (c_ssrnLink c) (c_deadline c) (c_url c) (c_tier c).

(** [s.get(k)] as a condition, for an optional key. *)
Definition get_truthy (o : option string) : bool :=
  match o with Some v => Py.truthy v | None => false end.

(** [not c.get("deadline") or c["deadline"] == "TBD"] *)
Definition deadline_open (deadline : string) : bool :=
  negb (Py.truthy deadline) || String.eqb deadline "TBD".

(** [not old_start or old_start.endswith("-01")] *)
Definition start_vague (old_start : string) : bool :=
  negb (Py.truthy old_start) || Py.endswith old_start "-01".

(** ** The record merger *)

(** The loop [for d in detect_disciplines(...)] of the update branch. *)
Definition add_disciplines (ds : list string) (ex : Conf) : Conf :=
  fold_left (fun ex d => if set_mem d (c_disc ex) then ex else set_disc (c_disc ex ++ [d]) ex)
            ds ex.

(** The branch [if sid in existing_by_sid] applied to the record [ex]; the
    second component is the increment of [updated_count]. *)
Definition update_existing (ex : Conf) (s : Entry) : Conf * nat :=
  let '(ex, updated) :=
    if get_truthy (s_deadline s) && deadline_open (c_deadline ex)
    then (set_deadline (default "" (s_deadline s)) ex, 1)
    else (ex, 0) in
  let ex :=
    if get_truthy (s_conf_start s) then
      let old_start := c_startDate ex in
      if start_vague old_start then
        let ex := set_startDate (default "" (s_conf_start s)) ex in
        if get_truthy (s_conf_display s)
        then set_dates (default "" (s_conf_display s)) ex
        else ex
      else ex
    else if Py.truthy (s_dates s) && negb (Py.truthy (c_dates ex)) then
      let '(start_date, display) := parse_conf_dates (s_dates s) in
      let ex := if Py.truthy display then set_dates display ex else ex in
      if Py.truthy start_date && negb (Py.truthy (c_startDate ex))
      then set_startDate start_date ex
      else ex
    else ex in
  let ex :=
    if Py.truthy (s_location s) && negb (Py.truthy (c_location ex))
    then set_country (detect_country (s_location s)) (set_location (s_location s) ex)
    else ex in
  (add_disciplines (detect_disciplines (s_category s) (s_name s)) ex, updated).

(** The dictionary literal of the [else] branch. *)
Definition new_conf (next_id : Z) (s : Entry) : Conf :=
  let sid := s_sid s in
  let '(start_date, display_dates) := parse_conf_dates (s_dates s) in
  let '(start_date, display_dates) :=
    if get_truthy (s_conf_start s)
    then (default "" (s_conf_start s), default display_dates (s_conf_display s))
    else (start_date, display_dates) in
  let location := s_location s in
  {| c_id := next_id;
     c_name := s_name s;
     c_dates := if Py.truthy display_dates then display_dates else s_dates s;
     c_startDate := start_date;
     c_location := location;
     c_country := detect_country location;
     c_disc := detect_disciplines (s_category s) (s_name s);
     c_sid := sid;
     c_ssrnLink := s_ssrnLink s;
     c_deadline := default "TBD" (s_deadline s);
     c_url := "";
     c_tier := "" |}.

(** The local variables of [merge_scraped_into_existing]. The dictionary
    maps a sid to the position in [existing] of the record it refers to. *)
Record merge_state : Type := mkState {
  st_existing : list Conf;
  st_by_sid : gmap string nat;
  st_next_id : Z;
  st_new_count : nat;
  st_updated_count : nat
}.

(** [{str(c.get("sid", "")): c for c in existing}]: a later record
    replaces an earlier one under the same key. *)
Fixpoint by_sid_from (i : nat) (existing : list Conf) (acc : gmap string nat)
    : gmap string nat :=
  match existing with
  | [] => acc
  | c :: rest => by_sid_from (S i) rest (<[c_sid c := i]> acc)
  end.

(** [max((c.get("id", 0) for c in existing), default=0)] *)
Definition max_id (existing : list Conf) : Z :=
  match existing with
  | [] => 0%Z
  | c :: rest => fold_left Z.max (map c_id rest) (c_id c)
  end.

Definition merge_init (existing : list Conf) : merge_state :=
  {| st_existing := existing;
     st_by_sid := by_sid_from 0 existing ∅;
     st_next_id := (max_id existing + 1)%Z;
     st_new_count := 0;
     st_updated_count := 0 |}.

(** One turn of the loop [for s in scraped]. *)
Definition merge_step (st : merge_state) (s : Entry) : merge_state :=
  let sid := s_sid s in
  if negb (Py.truthy sid) then st else
  match st_by_sid st !! sid with
  | Some i =>
      match st_existing st !! i with
      | Some ex =>
          let '(ex', updated) := update_existing ex s in
          {| st_existing := <[i := ex']> (st_existing st);
             st_by_sid := st_by_sid st;
             st_next_id := st_next_id st;
             st_new_count := st_new_count st;
             st_updated_count := st_updated_count st + updated |}
      | None => st
      end
  | None =>
      let new := new_conf (st_next_id st) s in
      {| st_existing := st_existing st ++ [new];
         st_by_sid := <[sid := length (st_existing st)]> (st_by_sid st);
         st_next_id := (st_next_id st + 1)%Z;
         st_new_count := st_new_count st + 1;
         st_updated_count := st_updated_count st |}
  end.

Definition merge_loop (st : merge_state) (scraped : list Entry) : merge_state :=
  fold_left merge_step scraped st.

Definition merge_scraped_into_existing (existing : list Conf) (scraped : list Entry)
    : list Conf :=
  st_existing (merge_loop (merge_init existing) scraped).

(** ** The world of a run *)

(** The file at [JSON_PATH]: absent, present but not valid JSON, or a stored
    list of records. *)
Inductive store_file : Type :=
  | Missing
  | Corrupt
  | Stored (content : list Conf).

(** What a run finds outside itself. [page_entries] is the list that
    [page.evaluate] returns for a listing page, [None] when loading the page
    raised; [page_text] is the rendered text of a detail page, [None] when
    loading it raised or the bot challenge survived the retry. *)
Record env : Type := mkEnv {
  playwright_installed : bool;
  store : store_file;
  today : date;
  page_entries : Z -> option (list Entry);
  page_text : string -> option string
}.

(** A computation that may write the store file and may raise: it maps the
    writes made so far to a result and the writes made so far
    ([json.dump(..., f)] on [JSON_PATH], the latest last). *)
Definition io (A : Type) : Type := list (list Conf) -> result A * list (list Conf).

Definition io_ret {A : Type} (a : A) : io A := fun w => (Ok a, w).

Definition io_bind {A B : Type} (x : io A) (f : A -> io B) : io B :=
  fun w =>
    match x w with
    | (Ok a, w') => f a w'
    | (Raise e, w') => (Raise e, w')
    end.

Definition io_lift {A : Type} (r : result A) : io A := fun w => (r, w).

Definition io_raise {A : Type} (e : exn) : io A := fun w => (Raise e, w).

Definition json_dump (content : list Conf) : io unit :=
  fun w => (Ok tt, (w ++ [content])%list).

Notation "x <~ e1 ;; e2" := (io_bind e1 (fun x => e2))
  (at level 100, e1 at next level, right associativity).

Definition NETWORKS : list (string * Z) :=
  [("Finance", 203); ("Accounting", 204); ("Economics", 205)]%Z.

Definition set_category (v : string) (s : Entry) : Entry :=
  mkEntry (s_name s) (s_dates s) (s_location s) (s_posted s) (s_sid s) v
          (s_ssrnLink s) (s_deadline s) (s_conf_start s) (s_conf_display s).

Definition set_entry_deadline (v : string) (s : Entry) : Entry :=
  mkEntry (s_name s) (s_dates s) (s_location s) (s_posted s) (s_sid s) (s_category s)
          (s_ssrnLink s) (Some v) (s_conf_start s) (s_conf_display s).

Definition set_entry_conf (start display : string) (s : Entry) : Entry :=
  mkEntry (s_name s) (s_dates s) (s_location s) (s_posted s) (s_sid s) (s_category s)
          (s_ssrnLink s) (s_deadline s) (Some start) (Some display).

Definition skip_keywords : list string := [
  "phd"; "doctoral position"; "faculty position"; "professor of";
  "call for chapters"; "special issue"; "journal of"; "edited book";
  "tenure track"; "research associate"; "instructor"; "lecturer";
  "fellowship"; "scholarship"
].

Definition scrape_listing_page (w : env) (network_name : string) (network_id : Z)
    : list Entry :=
  match page_entries w network_id with
  | None => []
  | Some entries =>
      map (set_category network_name)
          (List.filter
             (fun entry =>
                negb (existsb (fun kw => Py.contains kw (Py.lower (s_name entry))) skip_keywords))
             entries)
  end.

(** The pair is [(result["deadline"], result["conf_date"])]. *)
Definition scrape_detail_page (w : env) (url : string)
    : result (option string * option (string * string)) :=
  match page_text w url with
  | None => Ok (None, None)
  | Some full_text =>
      deadline <- extract_deadline_from_text (today w) full_text ;;
      conf_date <- extract_conf_date_from_text full_text ;;
      Ok (deadline, conf_date)
  end.

Definition scrape_deadline_from_page (w : env) (url : string) : result (option string) :=
  r <- scrape_detail_page w url ;;
  Ok (fst r).

Definition load_existing_json (w : env) : io (list Conf) :=
  match store w with
  | Stored content => io_ret content
  | Corrupt => io_raise JSONDecodeError
  | Missing => io_ret []
  end.

(** [from playwright.sync_api import sync_playwright] *)
Definition import_playwright (w : env) : io unit :=
  if playwright_installed w then io_ret tt else io_raise ImportError.

(** Phase 1: the listing pages of the three networks, concatenated. *)
Definition scrape_all_listings (w : env) : list Entry :=
  flat_map (fun '(name, nid) => scrape_listing_page w name nid) NETWORKS.

(** The dictionary [seen], in insertion order, with the categories of a
    repeated sid accumulated on the entry that came first. *)
Fixpoint seen_add (seen : list (string * Entry)) (c : Entry) : list (string * Entry) :=
  match seen with
  | [] => [(s_sid c, c)]
  | (sid, old) :: rest =>
      if String.eqb sid (s_sid c) then
        let old_cat := s_category old in
        (sid, if Py.contains (s_category c) old_cat then old
              else set_category (old_cat +:+ "," +:+ s_category c) old) :: rest
      else (sid, old) :: seen_add rest c
  end.

Definition dedupe (all_scraped : list Entry) : list (string * Entry) :=
  fold_left seen_add all_scraped [].

(** The deduplication of [run_list_only], which keeps the first entry as it is. *)
Definition dedupe_first (all_scraped : list Entry) : list (string * Entry) :=
  fold_left (fun seen c =>
               if existsb (fun p => String.eqb (fst p) (s_sid c)) seen then seen
               else (seen ++ [(s_sid c, c)])%list)
            all_scraped [].

(** [seen[sid] = f(seen[sid])] when [sid in seen]. *)
Definition seen_update (sid : string) (f : Entry -> Entry) (seen : list (string * Entry))
    : list (string * Entry) :=
  map (fun p => if String.eqb (fst p) sid then (fst p, f (snd p)) else p) seen.

(** The loop of lines 721-724: the first record of that sid whose deadline
    is open takes the deadline found on the detail page. *)
Fixpoint fill_deadline (existing : list Conf) (sid deadline : string) : list Conf :=
  match existing with
  | [] => []
  | c :: rest =>
      if String.eqb (c_sid c) sid && deadline_open (c_deadline c)
      then set_deadline deadline c :: rest
      else c :: fill_deadline rest sid deadline
  end.

(** The loop of lines 735-743: the first record of that sid takes the
    start date of the detail page if its own is vague. *)
Fixpoint fill_conf_date (existing : list Conf) (sid conf_start conf_display : string)
    : list Conf :=
  match existing with
  | [] => []
  | c :: rest =>
      if String.eqb (c_sid c) sid then
        (if start_vague (c_startDate c) then
           let c := set_startDate conf_start c in
           if Py.truthy conf_display then set_dates conf_display c else c
         else c) :: rest
      else c :: fill_conf_date rest sid conf_start conf_display
  end.

Definition sids_of (existing : list Conf) : gset string :=
  list_to_set (map c_sid existing).

(** The dictionary [sid_to_url] of [run_full_scrape]. *)
Definition build_sid_to_url (all_scraped : list Entry) (existing : list Conf)
    (tbd_sids : gset string) : gmap string string :=
  let m := fold_left (fun m c => <[s_sid c := s_ssrnLink c]> m) all_scraped ∅ in
  fold_left (fun m c =>
               if bool_decide (c_sid c ∈ tbd_sids) && Py.truthy (c_ssrnLink c)
               then <[c_sid c := c_ssrnLink c]> m else m)
            existing m.

(** One turn of the loop [for sid in sids_to_visit] on the pair
    [(seen, existing)]. *)
Definition visit (w : env) (sid_to_url : gmap string string)
    (st : list (string * Entry) * list Conf) (sid : string)
    : result (list (string * Entry) * list Conf) :=
  let '(seen, existing) := st in
  match sid_to_url !! sid with
  | None => Ok st
  | Some url =>
      if negb (Py.truthy url) then Ok st else
      r <- scrape_detail_page w url ;;
      let '(seen, existing) :=
        match fst r with
        | Some deadline =>
            if Py.truthy deadline
            then (seen_update sid (set_entry_deadline deadline) seen,
                  fill_deadline existing sid deadline)
            else (seen, existing)
        | None => (seen, existing)
        end in
      match snd r with
      | Some (conf_start, conf_display) =>
          if Py.truthy conf_start
          then Ok (seen_update sid (set_entry_conf conf_start conf_display) seen,
                   fill_conf_date existing sid conf_start conf_display)
          else Ok (seen, existing)
      | None => Ok (seen, existing)
      end
  end.

Fixpoint visit_all (w : env) (sid_to_url : gmap string string)
    (st : list (string * Entry) * list Conf) (sids : list string)
    : result (list (string * Entry) * list Conf) :=
  match sids with
  | [] => Ok st
  | sid :: rest =>
      st' <- visit w sid_to_url st sid ;;
      visit_all w sid_to_url st' rest
  end.

Definition run_full_scrape (w : env) : io unit :=
  _ <~ import_playwright w ;;
  existing <~ load_existing_json w ;;
  let existing_sids := sids_of existing in
  let all_scraped := scrape_all_listings w in
  let seen := dedupe all_scraped in
  let all_scraped := map snd seen in
  let new_entries :=
    List.filter (fun c => negb (bool_decide (s_sid c ∈ existing_sids))) all_scraped in
  let tbd_sids : gset string :=
    list_to_set (map c_sid (List.filter (fun c => deadline_open (c_deadline c)) existing)) in
  let new_sids : gset string := list_to_set (map s_sid new_entries) in
  let sids_to_visit := new_sids ∪ tbd_sids in
  let sid_to_url := build_sid_to_url all_scraped existing tbd_sids in
  let vague_date_sids : gset string :=
    list_to_set (map c_sid (List.filter
      (fun c => Py.truthy (c_sid c) && start_vague (c_startDate c)) existing)) in
  let sids_to_visit := sids_to_visit ∪ vague_date_sids in
  st <~ io_lift (visit_all w sid_to_url (seen, existing) (elements sids_to_visit)) ;;
  let '(seen, existing) := st in
  let result := merge_scraped_into_existing existing (map snd seen) in
  json_dump result.

(** The loop [for i, conf in enumerate(tbd_confs)]: the members of
    [tbd_confs] are the records of [existing] themselves. *)
Fixpoint check_tbd (w : env) (existing : list Conf) : result (list Conf) :=
  match existing with
  | [] => Ok []
  | conf :: rest =>
      conf' <-
        (if deadline_open (c_deadline conf) && Py.truthy (c_ssrnLink conf) then
           deadline <- scrape_deadline_from_page w (c_ssrnLink conf) ;;
           Ok (if get_truthy deadline then set_deadline (default "" deadline) conf else conf)
         else Ok conf) ;;
      rest' <- check_tbd w rest ;;
      Ok (conf' :: rest')
  end.

Definition run_deadlines_only (w : env) : io unit :=
  _ <~ import_playwright w ;;
  existing <~ load_existing_json w ;;
  let tbd_confs := List.filter (fun c => deadline_open (c_deadline c)) existing in
  match tbd_confs with
  | [] => io_ret tt
  | _ =>
      existing <~ io_lift (check_tbd w existing) ;;
      json_dump existing
  end.

(** The loop over [new_entries.items()] of [run_new_only]. *)
Fixpoint fetch_new_deadlines (w : env) (new_entries : list Entry) : result (list Entry) :=
  match new_entries with
  | [] => Ok []
  | conf :: rest =>
      deadline <- scrape_deadline_from_page w (s_ssrnLink conf) ;;
      rest' <- fetch_new_deadlines w rest ;;
      Ok ((if get_truthy deadline then set_entry_deadline (default "" deadline) conf else conf)
            :: rest')
  end.

Definition run_new_only (w : env) : io unit :=
  _ <~ import_playwright w ;;
  existing <~ load_existing_json w ;;
  let existing_sids := sids_of existing in
  let seen := dedupe (scrape_all_listings w) in
  let new_entries :=
    List.filter (fun c => negb (bool_decide (s_sid c ∈ existing_sids))) (map snd seen) in
  match new_entries with
  | [] => io_ret tt
  | _ =>
      new_entries <~ io_lift (fetch_new_deadlines w new_entries) ;;
      let result := merge_scraped_into_existing existing new_entries in
      json_dump result
  end.

Definition run_list_only (w : env) : io unit :=
  _ <~ import_playwright w ;;
  existing <~ load_existing_json w ;;
  let seen := dedupe_first (scrape_all_listings w) in
  io_ret tt.

(** ** The command line *)

Record args : Type := mkArgs { new_only : bool; deadlines_only : bool; list_only : bool }.

(** What a run leaves behind: the exit status of the process and the
    contents written to the store file, in order. *)
Record outcome : Type := mkOutcome { exit_code : Z; written : list (list Conf) }.

(** [main]: an [ImportError] is caught and answered with [sys.exit(1)];
    any other exception leaves [main] and the interpreter ends with
    status 1 as well; a run that returns ends with status 0. *)
Definition main (a : args) (w : env) : outcome :=
  let run :=
    if new_only a then run_new_only w
    else if deadlines_only a then run_deadlines_only w
    else if list_only a then run_list_only w
    else run_full_scrape w in
  match run [] with
  | (Ok _, writes) => {| exit_code := 0; written := writes |}
  | (Raise ImportError, writes) => {| exit_code := 1; written := writes |}
  | (Raise _, writes) => {| exit_code := 1; written := writes |}
  end.

(** * Notions used by the statements *)

(** ** The entry filter and the disciplines *)

(** Some phrase of the list occurs in the string. *)
Definition any_in (phrases : list string) (s : string) : bool :=
  existsb (fun kw => Py.contains kw s) phrases.

(** The values that [detect_disciplines] can return. *)
Definition discipline_outcomes : list (list string) :=
  [ ["fin"]; ["acct"]; ["econ"]; ["acct"; "fin"]; ["econ"; "fin"];
    ["acct"; "econ"]; ["acct"; "econ"; "fin"] ].

(** No finance, accounting or economics signal in the category or the name. *)
Definition no_signal (category name : string) : bool :=
  negb (any_in ["finance"; "accounting"; "economics"; "econ"] (Py.lower category)) &&
  negb (any_in ["accounting"; "economics"; "economic"; "macroeconom"; "finance"] (Py.lower name)).

(** ** The merge on the list *)

(** The position of the last record of [existing] filed under the sid [k]:
    the record that [existing_by_sid] refers to. *)
Fixpoint last_index (k : string) (existing : list Conf) : option nat :=
  match existing with
  | [] => None
  | c :: rest =>
      match last_index k rest with
      | Some j => Some (S j)
      | None => if decide (c_sid c = k) then Some 0 else None
      end
  end.

(** The dictionary agrees with the list it was built from. *)
Definition consistent (st : merge_state) : Prop :=
  st_by_sid st = by_sid_from 0 (st_existing st) ∅.

(** One turn of the merge loop read on the list alone: the record that the
    dictionary refers to is the last one filed under the sid. *)
Definition lstep (p : list Conf * Z) (s : Entry) : list Conf * Z :=
  let '(l, n) := p in
  if negb (Py.truthy (s_sid s)) then (l, n) else
  match last_index (s_sid s) l with
  | Some i =>
      match l !! i with
      | Some ex => (<[i := fst (update_existing ex s)]> l, n)
      | None => (l, n)
      end
  | None => (l ++ [new_conf n s], (n + 1)%Z)
  end.

Definition lrun (p : list Conf * Z) (scraped : list Entry) : list Conf * Z :=
  fold_left lstep scraped p.

(** A run of several merges, each on the store the previous one returned. *)
Definition merge_all (existing : list Conf) (batches : list (list Entry)) : list Conf :=
  fold_left merge_scraped_into_existing batches existing.

(** The tags of a record after [add_disciplines], as a function of its tags. *)
Definition add_tags (ds disc : list string) : list string :=
  fold_left (fun acc d => if set_mem d acc then acc else acc ++ [d]) ds disc.

(** Field by field, what [update_existing] leaves in the record. *)
Definition upd_deadline (ex : Conf) (s : Entry) : string :=
  if get_truthy (s_deadline s) && deadline_open (c_deadline ex)
  then default "" (s_deadline s) else c_deadline ex.

Definition upd_startDate (ex : Conf) (s : Entry) : string :=
  if get_truthy (s_conf_start s) then
    if start_vague (c_startDate ex) then default "" (s_conf_start s) else c_startDate ex
  else if Py.truthy (s_dates s) && negb (Py.truthy (c_dates ex)) then
    if Py.truthy (fst (parse_conf_dates (s_dates s))) && negb (Py.truthy (c_startDate ex))
    then fst (parse_conf_dates (s_dates s)) else c_startDate ex
  else c_startDate ex.

Definition upd_dates (ex : Conf) (s : Entry) : string :=
  if get_truthy (s_conf_start s) then
    if start_vague (c_startDate ex) && get_truthy (s_conf_display s)
    then default "" (s_conf_display s) else c_dates ex
  else if Py.truthy (s_dates s) && negb (Py.truthy (c_dates ex)) then
    if Py.truthy (snd (parse_conf_dates (s_dates s)))
    then snd (parse_conf_dates (s_dates s)) else c_dates ex
  else c_dates ex.

Definition upd_location (ex : Conf) (s : Entry) : string :=
  if Py.truthy (s_location s) && negb (Py.truthy (c_location ex))
  then s_location s else c_location ex.

Definition upd_country (ex : Conf) (s : Entry) : string :=
  if Py.truthy (s_location s) && negb (Py.truthy (c_location ex))
  then detect_country (s_location s) else c_country ex.

(** ** Invariants of the store and of its records *)

(** The invariant of section 3: a sid is carried by one record at most. *)
Definition sid_unique (existing : list Conf) : Prop :=
  forall i j ci cj,
    existing !! i = Some ci -> existing !! j = Some cj ->
    c_sid ci = c_sid cj -> c_sid ci <> "" -> i = j.

(** The fields that the merger never touches. *)
Definition same_identity (r r' : Conf) : Prop :=
  c_id r' = c_id r /\ c_name r' = c_name r /\ c_sid r' = c_sid r /\
  c_ssrnLink r' = c_ssrnLink r /\ c_url r' = c_url r /\ c_tier r' = c_tier r.

(** [r'] is [r] strengthened: no only-strengthen field went back. *)
Definition strengthens (r r' : Conf) : Prop :=
  same_identity r r' /\
  (deadline_open (c_deadline r) = false -> c_deadline r' = c_deadline r) /\
  (c_deadline r <> "" -> c_deadline r' <> "") /\
  (start_vague (c_startDate r) = false -> c_startDate r' = c_startDate r) /\
  (c_startDate r <> "" -> c_startDate r' <> "") /\
  (c_dates r <> "" -> c_dates r' <> "") /\
  (c_location r <> "" -> c_location r' = c_location r /\ c_country r' = c_country r) /\
  (forall d, In d (c_disc r) -> In d (c_disc r')).

(** Every id of the list lies below the next id to be given. *)
Definition ids_below (p : list Conf * Z) : Prop :=
  Forall (fun c => (c_id c < snd p)%Z) (fst p).


(** The records from the place [k] on, those that a merge has appended to a
    store of [k] records, all satisfy [Q]. *)
Definition created_ok (Q : Conf -> Prop) (k : nat) (l : list Conf) : Prop :=
  forall i c, k <= i -> l !! i = Some c -> Q c.

(** The record [y] of the second pass over a batch, against the record [x]
    at the same point of the first pass and the record [f] that the first
    pass ends with: [y] agrees with [f] outside the start date and the
    display dates; these two agree with [f] when the final start date is
    not vague, and with [x] or [f] when it is. *)
Definition replay_rel (x y f : Conf) : Prop :=
  same_identity f y /\
  c_deadline y = c_deadline f /\
  c_location y = c_location f /\
  c_country y = c_country f /\
  c_disc y = c_disc f /\
  (c_startDate f <> "" -> c_startDate y <> "") /\
  (c_dates f <> "" -> c_dates y <> "") /\
  (start_vague (c_startDate f) = false ->
     c_startDate y = c_startDate f /\ c_dates y = c_dates f) /\
  (start_vague (c_startDate f) = true ->
     (c_startDate y = c_startDate x \/ c_startDate y = c_startDate f) /\
     (c_dates y = c_dates x \/ c_dates y = c_dates f)).

(** The second pass [Y] against the first pass [X] and its final list [F]. *)
Definition replay_inv (X Y F : list Conf) : Prop :=
  length Y = length F /\
  map c_sid Y = map c_sid F /\
  forall i y f, Y !! i = Some y -> F !! i = Some f ->
    match X !! i with
    | Some x => replay_rel x y f
    | None => y = f
    end.





(** ** Runs and their worlds *)

(** A day of the given year on the wall clock. *)
Definition on_year (y : Z) : date := {| year := y; month := 1; day := 15 |}.

(** The same world with another store file. *)
Definition with_store (f : store_file) (w : env) : env :=
  mkEnv (playwright_installed w) f (today w) (page_entries w) (page_text w).

(** A world in which Playwright is installed and no page can be loaded. *)
Definition offline (f : store_file) : env :=
  mkEnv true f (on_year 2026) (fun _ => None) (fun _ => None).

(** The command line without any flag: the full scrape. *)
Definition no_flag : args := {| new_only := false; deadlines_only := false; list_only := false |}.





(** ** Sample records *)

(** A scraped entry as a listing page yields it: no key of the detail pass. *)
Definition listed (sid name : string) : Entry :=
  {| s_name := name; s_dates := ""; s_location := ""; s_posted := "";
     s_sid := sid; s_category := "Finance";
     s_ssrnLink := "https://www.ssrn.com/index.cfm/en/janda/announcement/?id=" +:+ sid;
     s_deadline := None; s_conf_start := None; s_conf_display := None |}.

(** The entry of the examples of section 8. *)
Definition entry_12345 : Entry := listed "12345" "Annual Meeting on Asset Pricing".

(** A stored record filed under the sid, with the given deadline and start date. *)
Definition stored (sid deadline startDate : string) : Conf :=
  {| c_id := 1; c_name := "Annual Meeting on Asset Pricing"; c_dates := "";
     c_startDate := startDate; c_location := ""; c_country := "Unknown";
     c_disc := ["fin"]; c_sid := sid;
     c_ssrnLink := "https://www.ssrn.com/index.cfm/en/janda/announcement/?id=" +:+ sid;
     c_deadline := deadline; c_url := ""; c_tier := "" |}.





(** A world with an empty store whose Finance listing shows the given
    announcements; no other page can be loaded. *)
Definition listing_world (entries : list Entry) : env :=
  mkEnv true (Stored []) (on_year 2026)
        (fun network_id => if (network_id =? 203)%Z then Some entries else None)
        (fun _ => None).

(** ** Dates written and read back *)











(** * Properties *)

(** ** Python strings *)

Lemma truthy_true (s : string) : Py.truthy s = true <-> s <> "".
Proof. destruct s; simpl; split; congruence. Qed.

Lemma truthy_false (s : string) : Py.truthy s = false <-> s = "".
Proof. destruct s; simpl; split; congruence. Qed.

(** ** The entry filter *)





(** In [is_non_conference] the safelist does not win over the secondary
    exact-phrase list: "Summer School Workshop" contains the safelist phrase
    "workshop" and no keyword of the first denylist, and the function
    rejects it, because it contains "summer school" and not "conference". *)
Lemma safelist_loses_to_exact_phrase :
  In "workshop" CONFERENCE_SAFELIST /\
  Py.contains "workshop" (Py.lower "Summer School Workshop") = true /\
  any_in NON_CONFERENCE_KEYWORDS (Py.lower "Summer School Workshop") = false /\
  is_non_conference "Summer School Workshop" = true.
Proof.
  split; [simpl; tauto|].
  repeat split; vm_compute; reflexivity.
Qed.



(** ** Disciplines *)

Lemma detect_disciplines_cases (category name : string) :
  In (detect_disciplines category name) discipline_outcomes.
Proof.
  unfold detect_disciplines. cbn [existsb].
  generalize (Py.contains "finance" (Py.lower category)).
  generalize (Py.contains "accounting" (Py.lower category)).
  generalize (Py.contains "economics" (Py.lower category)).
  generalize (Py.contains "econ" (Py.lower category)).
  generalize (Py.contains "accounting" (Py.lower name)).
  generalize (Py.contains "economics" (Py.lower name)).
  generalize (Py.contains "economic" (Py.lower name)).
  generalize (Py.contains "macroeconom" (Py.lower name)).
  generalize (Py.contains "finance" (Py.lower name)).
  intros [] [] [] [] [] [] [] [] []; vm_compute; tauto.
Qed.

Lemma detect_disciplines_no_signal (category name : string) :
  no_signal category name = true -> detect_disciplines category name = ["fin"].
Proof.
  unfold no_signal, any_in, detect_disciplines. cbn [existsb].
  destruct (Py.contains "finance" (Py.lower category)); [discriminate|].
  destruct (Py.contains "accounting" (Py.lower category)); [discriminate|].
  destruct (Py.contains "economics" (Py.lower category)); [discriminate|].
  destruct (Py.contains "econ" (Py.lower category)); [discriminate|].
  destruct (Py.contains "accounting" (Py.lower name)); [discriminate|].
  destruct (Py.contains "economics" (Py.lower name)); [discriminate|].
  destruct (Py.contains "economic" (Py.lower name)); [discriminate|].
  destruct (Py.contains "macroeconom" (Py.lower name)); [discriminate|].
  destruct (Py.contains "finance" (Py.lower name)); [discriminate|].
  reflexivity.
Qed.

Lemma detect_disciplines_nonempty (category name : string) :
  detect_disciplines category name <> [].
Proof.
  intros H. pose proof (detect_disciplines_cases category name) as Hc.
  rewrite H in Hc. simpl in Hc. intuition discriminate.
Qed.

(** ** The merger, record by record *)

Lemma add_disciplines_identity (ds : list string) (ex : Conf) :
  let ex' := add_disciplines ds ex in
  c_id ex' = c_id ex /\ c_name ex' = c_name ex /\ c_dates ex' = c_dates ex /\
  c_startDate ex' = c_startDate ex /\ c_location ex' = c_location ex /\
  c_country ex' = c_country ex /\ c_sid ex' = c_sid ex /\
  c_ssrnLink ex' = c_ssrnLink ex /\ c_deadline ex' = c_deadline ex /\
  c_url ex' = c_url ex /\ c_tier ex' = c_tier ex.
Proof.
  unfold add_disciplines. revert ex.
  induction ds as [|d ds IH]; intros ex; simpl; [tauto|].
  destruct (set_mem d (c_disc ex)); [apply IH|].
  specialize (IH (set_disc (c_disc ex ++ [d]) ex)). simpl in IH. exact IH.
Qed.

Lemma set_mem_In (d : string) (l : list string) : set_mem d l = true <-> In d l.
Proof.
  unfold set_mem. rewrite existsb_exists. split.
  - intros (x & Hx & He). apply String.eqb_eq in He. now subst.
  - intros H. exists d. split; [exact H | apply String.eqb_refl].
Qed.

Lemma add_disciplines_disc (ds : list string) (ex : Conf) :
  c_disc (add_disciplines ds ex) = add_tags ds (c_disc ex).
Proof.
  unfold add_disciplines, add_tags. revert ex.
  induction ds as [|d ds IH]; intros ex; simpl; [reflexivity|].
  destruct (set_mem d (c_disc ex)); rewrite IH; reflexivity.
Qed.

Lemma update_existing_fields (ex : Conf) (s : Entry) :
  let ex' := fst (update_existing ex s) in
  c_id ex' = c_id ex /\ c_name ex' = c_name ex /\ c_sid ex' = c_sid ex /\
  c_ssrnLink ex' = c_ssrnLink ex /\ c_url ex' = c_url ex /\ c_tier ex' = c_tier ex /\
  c_deadline ex' = upd_deadline ex s /\
  c_startDate ex' = upd_startDate ex s /\
  c_dates ex' = upd_dates ex s /\
  c_location ex' = upd_location ex s /\
  c_country ex' = upd_country ex s /\
  c_disc ex' = add_tags (detect_disciplines (s_category s) (s_name s)) (c_disc ex).
Proof.
  pose proof (fun e => add_disciplines_identity
                (detect_disciplines (s_category s) (s_name s)) e) as Hid.
  cbv zeta in Hid.
  unfold update_existing, upd_deadline, upd_startDate, upd_dates, upd_location, upd_country.
  destruct (parse_conf_dates (s_dates s)) as [sd disp] eqn:Ep.
  destruct ex as [id name dates startDate location country disc sid link deadline url tier].
  cbn [fst snd c_startDate c_dates c_location c_deadline c_country c_disc].
  repeat match goal with
  | |- context [if ?b then _ else _] => destruct b eqn:?
  | |- context [let '(_, _) := ?p in _] => destruct p eqn:?
  end;
  cbn [andb negb orb fst snd c_id c_name c_sid c_ssrnLink c_url c_tier c_startDate c_dates
       c_location c_deadline c_country c_disc
       set_dates set_startDate set_deadline set_location set_country] in *;
  try discriminate.
  all: match goal with
  | |- context [add_disciplines _ ?e] =>
      destruct (Hid e) as (? & ? & ? & ? & ? & ? & ? & ? & ? & ? & ?)
  end.
  all: cbn [c_id c_name c_sid c_ssrnLink c_url c_tier c_startDate c_dates
       c_location c_deadline c_country c_disc] in *.
  all: repeat split; try assumption; try reflexivity.
  all: try congruence.
  all: rewrite add_disciplines_disc; reflexivity.
Qed.

Lemma by_sid_from_lookup (l : list Conf) :
  forall (i : nat) (acc : gmap string nat) (k : string),
    by_sid_from i l acc !! k =
    match last_index k l with
    | Some j => Some (i + j)
    | None => acc !! k
    end.
Proof.
  induction l as [|c l IH]; intros i acc k; simpl; [reflexivity|].
  rewrite IH. destruct (last_index k l) as [j|].
  - f_equal. lia.
  - rewrite lookup_insert. destruct (decide (c_sid c = k)); [f_equal; lia | reflexivity].
Qed.

Lemma last_index_lookup (k : string) (l : list Conf) (i : nat) :
  last_index k l = Some i -> exists c, l !! i = Some c /\ c_sid c = k.
Proof.
  revert i. induction l as [|c l IH]; intros i; simpl; [discriminate|].
  destruct (last_index k l) as [j|].
  - intros [= <-]. destruct (IH j eq_refl) as (c' & ? & ?). exists c'. auto.
  - destruct (decide (c_sid c = k)); [|discriminate].
    intros [= <-]. exists c. auto.
Qed.

Lemma last_index_None (k : string) (l : list Conf) :
  last_index k l = None <-> ~ In k (map c_sid l).
Proof.
  induction l as [|c l IH]; simpl; [tauto|].
  destruct (last_index k l) as [j|].
  - split; [discriminate|]. intros H. exfalso.
    destruct (in_dec string_dec k (map c_sid l)) as [Hin|Hin]; [tauto|].
    apply IH in Hin. discriminate.
  - assert (~ In k (map c_sid l)) as Hn by now apply IH.
    destruct (decide (c_sid c = k)); split; try discriminate; try tauto.
Qed.

Lemma last_index_app (k : string) (l : list Conf) (c : Conf) :
  last_index k (l ++ [c]) =
  if decide (c_sid c = k) then Some (length l) else last_index k l.
Proof.
  induction l as [|c' l IH]; simpl.
  - destruct (decide (c_sid c = k)); reflexivity.
  - rewrite IH. destruct (decide (c_sid c = k)); [reflexivity|].
    reflexivity.
Qed.

Lemma last_index_sids (k : string) (l1 l2 : list Conf) :
  map c_sid l1 = map c_sid l2 -> last_index k l1 = last_index k l2.
Proof.
  revert l2. induction l1 as [|c1 l1 IH]; intros [|c2 l2]; simpl; try discriminate; [reflexivity|].
  intros [= H1 H2]. rewrite (IH l2 H2), H1. reflexivity.
Qed.

Lemma last_index_unique (l : list Conf) (i : nat) (c : Conf) :
  sid_unique l -> l !! i = Some c -> c_sid c <> "" -> last_index (c_sid c) l = Some i.
Proof.
  intros Hu Hi Hne.
  destruct (last_index (c_sid c) l) as [j|] eqn:E.
  - destruct (last_index_lookup _ _ _ E) as (c' & Hj & Hs).
    f_equal. symmetry. eapply (Hu i j c c'); eauto.
  - exfalso. apply last_index_None in E. apply E.
    apply in_map_iff. exists c. split; [reflexivity|].
    apply list_elem_of_In. eapply list_elem_of_lookup_2; eauto.
Qed.

Lemma by_sid_from_app (l : list Conf) (c : Conf) :
  forall (i : nat) (acc : gmap string nat),
    by_sid_from i (l ++ [c]) acc = <[c_sid c := i + length l]> (by_sid_from i l acc).
Proof.
  induction l as [|c' l IH]; intros i acc; simpl.
  - f_equal. lia.
  - rewrite IH. f_equal. lia.
Qed.

Lemma by_sid_from_sids (l1 l2 : list Conf) :
  map c_sid l1 = map c_sid l2 ->
  forall (i : nat) (acc : gmap string nat), by_sid_from i l1 acc = by_sid_from i l2 acc.
Proof.
  revert l2. induction l1 as [|c1 l1 IH]; intros [|c2 l2]; simpl; try discriminate; [reflexivity|].
  intros [= H1 H2] i acc. rewrite H1. now apply IH.
Qed.

Lemma map_sid_insert (l : list Conf) (i : nat) (ex ex' : Conf) :
  l !! i = Some ex -> c_sid ex' = c_sid ex -> map c_sid (<[i := ex']> l) = map c_sid l.
Proof.
  revert i. induction l as [|c l IH]; intros [|i]; simpl; try discriminate.
  - intros [= ->] H. now rewrite H.
  - intros Hi H. f_equal. now apply IH.
Qed.

Lemma update_existing_sid (ex : Conf) (s : Entry) :
  c_sid (fst (update_existing ex s)) = c_sid ex.
Proof. apply (update_existing_fields ex s). Qed.

Lemma new_conf_sid (n : Z) (s : Entry) : c_sid (new_conf n s) = s_sid s.
Proof.
  unfold new_conf. destruct (parse_conf_dates (s_dates s)).
  destruct (get_truthy (s_conf_start s)); reflexivity.
Qed.

Lemma new_conf_id (n : Z) (s : Entry) : c_id (new_conf n s) = n.
Proof.
  unfold new_conf. destruct (parse_conf_dates (s_dates s)).
  destruct (get_truthy (s_conf_start s)); reflexivity.
Qed.

Lemma new_conf_deadline (n : Z) (s : Entry) :
  c_deadline (new_conf n s) = default "TBD" (s_deadline s).
Proof.
  unfold new_conf. destruct (parse_conf_dates (s_dates s)).
  destruct (get_truthy (s_conf_start s)); reflexivity.
Qed.

Lemma new_conf_disc (n : Z) (s : Entry) :
  c_disc (new_conf n s) = detect_disciplines (s_category s) (s_name s).
Proof.
  unfold new_conf. destruct (parse_conf_dates (s_dates s)).
  destruct (get_truthy (s_conf_start s)); reflexivity.
Qed.

Lemma consistent_init (existing : list Conf) : consistent (merge_init existing).
Proof. reflexivity. Qed.

(** The loop on the state and the loop on the list take the same turn. *)
Lemma merge_step_lstep (st : merge_state) (s : Entry) :
  consistent st ->
  consistent (merge_step st s) /\
  (st_existing (merge_step st s), st_next_id (merge_step st s)) =
  lstep (st_existing st, st_next_id st) s.
Proof.
  intros Hc. unfold merge_step, lstep.
  destruct (negb (Py.truthy (s_sid s))); [split; [exact Hc | reflexivity]|].
  rewrite Hc, by_sid_from_lookup, lookup_empty.
  destruct (last_index (s_sid s) (st_existing st)) as [j|] eqn:Ej.
  - replace (0 + j) with j by lia.
    destruct (st_existing st !! j) as [ex|] eqn:Eex; [|split; [exact Hc | reflexivity]].
    destruct (update_existing ex s) as [ex' u] eqn:Eu. cbn [fst].
    split; [|reflexivity].
    unfold consistent. cbn [st_by_sid st_existing].
    apply by_sid_from_sids. symmetry.
    apply (map_sid_insert _ _ ex); [exact Eex|].
    pose proof (update_existing_sid ex s) as H. now rewrite Eu in H.
  - split; [|reflexivity].
    unfold consistent. cbn [st_by_sid st_existing].
    rewrite by_sid_from_app, new_conf_sid. reflexivity.
Qed.

Lemma merge_loop_lrun (scraped : list Entry) :
  forall st : merge_state,
    consistent st ->
    consistent (merge_loop st scraped) /\
    (st_existing (merge_loop st scraped), st_next_id (merge_loop st scraped)) =
    lrun (st_existing st, st_next_id st) scraped.
Proof.
  induction scraped as [|s scraped IH]; intros st Hc; simpl; [split; [exact Hc | reflexivity]|].
  destruct (merge_step_lstep st s Hc) as [Hc' Heq].
  destruct (IH _ Hc') as [Hc'' Heq'].
  split; [exact Hc''|].
  change (merge_loop st (s :: scraped)) with (merge_loop (merge_step st s) scraped).
  change (lrun (st_existing st, st_next_id st) (s :: scraped))
    with (lrun (lstep (st_existing st, st_next_id st) s) scraped).
  now rewrite Heq', Heq.
Qed.

Lemma merge_as_lrun (existing : list Conf) (scraped : list Entry) :
  merge_scraped_into_existing existing scraped =
  fst (lrun (existing, (max_id existing + 1)%Z) scraped).
Proof.
  unfold merge_scraped_into_existing.
  destruct (merge_loop_lrun scraped (merge_init existing) (consistent_init existing)) as [_ H].
  cbn [merge_init st_existing st_next_id] in H. now rewrite <- H.
Qed.

(** The three turns that the loop can take. *)
Lemma lstep_cases (l : list Conf) (n : Z) (s : Entry) :
  (s_sid s = "" /\ lstep (l, n) s = (l, n)) \/
  (s_sid s <> "" /\ exists i ex, last_index (s_sid s) l = Some i /\ l !! i = Some ex /\
     c_sid ex = s_sid s /\ lstep (l, n) s = (<[i := fst (update_existing ex s)]> l, n)) \/
  (s_sid s <> "" /\ last_index (s_sid s) l = None /\
     lstep (l, n) s = (l ++ [new_conf n s], (n + 1)%Z)).
Proof.
  unfold lstep. destruct (Py.truthy (s_sid s)) eqn:Et; cbn [negb].
  - apply truthy_true in Et.
    destruct (last_index (s_sid s) l) as [i|] eqn:Ei.
    + right; left. split; [exact Et|].
      destruct (last_index_lookup _ _ _ Ei) as (ex & Hex & Hs).
      exists i, ex. rewrite Hex. auto.
    + right; right. auto.
  - apply truthy_false in Et. left. auto.
Qed.

(** A relation on records that every update respects holds between a record
    of the store and the record at its place after the merge. *)
Section Pointwise.
Variable P : Conf -> Conf -> Prop.
Hypothesis P_refl : forall r, P r r.
Hypothesis P_trans : forall r1 r2 r3, P r1 r2 -> P r2 r3 -> P r1 r3.
Hypothesis P_update : forall ex s, P ex (fst (update_existing ex s)).

Lemma lstep_pointwise (l : list Conf) (n : Z) (s : Entry) (i : nat) (r : Conf) :
  l !! i = Some r ->
  exists r', fst (lstep (l, n) s) !! i = Some r' /\ P r r'.
Proof.
  intros Hi.
  destruct (lstep_cases l n s) as [[_ ->]|[(_ & j & ex & _ & Hex & _ & ->)|(_ & _ & ->)]];
    cbn [fst].
  - eauto.
  - destruct (decide (j = i)) as [->|Hne].
    + rewrite list_lookup_insert_eq by (eapply lookup_lt_Some; eauto).
      rewrite Hi in Hex. injection Hex as <-. eauto.
    + rewrite list_lookup_insert_ne by exact Hne. eauto.
  - rewrite lookup_app_l by (eapply lookup_lt_Some; eauto). eauto.
Qed.

Lemma lrun_pointwise (scraped : list Entry) :
  forall (l : list Conf) (n : Z) (i : nat) (r : Conf),
    l !! i = Some r ->
    exists r', fst (lrun (l, n) scraped) !! i = Some r' /\ P r r'.
Proof.
  induction scraped as [|s scraped IH]; intros l n i r Hi; [simpl; eauto|].
  change (lrun (l, n) (s :: scraped)) with (lrun (lstep (l, n) s) scraped).
  destruct (lstep_pointwise l n s i r Hi) as (r1 & H1 & HP1).
  destruct (lstep (l, n) s) as [l1 n1] eqn:E1. cbn [fst] in H1.
  destruct (IH l1 n1 i r1 H1) as (r2 & H2 & HP2).
  exists r2. split; [exact H2 | eauto].
Qed.

Lemma merge_pointwise (existing : list Conf) (scraped : list Entry) (i : nat) (r : Conf) :
  existing !! i = Some r ->
  exists r', merge_scraped_into_existing existing scraped !! i = Some r' /\ P r r'.
Proof. rewrite merge_as_lrun. apply lrun_pointwise. Qed.

Lemma merge_all_pointwise (batches : list (list Entry)) :
  forall (existing : list Conf) (i : nat) (r : Conf),
    existing !! i = Some r ->
    exists r', merge_all existing batches !! i = Some r' /\ P r r'.
Proof.
  unfold merge_all.
  induction batches as [|b batches IH]; intros existing i r Hi; simpl; [eauto|].
  destruct (merge_pointwise existing b i r Hi) as (r1 & H1 & HP1).
  destruct (IH _ i r1 H1) as (r2 & H2 & HP2). eauto.
Qed.
End Pointwise.

(** ** Only strengthen, never weaken *)

Lemma get_truthy_default (o : option string) :
  get_truthy o = true -> default "" o <> "".
Proof. destruct o as [v|]; simpl; [apply truthy_true | discriminate]. Qed.

Lemma start_vague_false_truthy (d : string) :
  start_vague d = false -> Py.truthy d = true.
Proof.
  unfold start_vague. rewrite orb_false_iff, negb_false_iff. tauto.
Qed.

Lemma add_tags_incl (ds disc : list string) (d : string) :
  In d disc -> In d (add_tags ds disc).
Proof.
  unfold add_tags. revert disc.
  induction ds as [|d' ds IH]; intros disc Hin; simpl; [exact Hin|].
  destruct (set_mem d' disc); apply IH; [exact Hin|].
  apply in_or_app. now left.
Qed.

Lemma same_identity_trans (r1 r2 r3 : Conf) :
  same_identity r1 r2 -> same_identity r2 r3 -> same_identity r1 r3.
Proof. unfold same_identity. intuition congruence. Qed.

Lemma strengthens_refl (r : Conf) : strengthens r r.
Proof. unfold strengthens, same_identity. tauto. Qed.

Lemma strengthens_trans (r1 r2 r3 : Conf) :
  strengthens r1 r2 -> strengthens r2 r3 -> strengthens r1 r3.
Proof.
  intros (I1 & D1 & E1 & S1 & T1 & A1 & L1 & C1) (I2 & D2 & E2 & S2 & T2 & A2 & L2 & C2).
  split; [eapply same_identity_trans; eauto|].
  repeat split.
  - intros H. rewrite D2; rewrite D1; auto.
  - auto.
  - intros H. rewrite S2; rewrite S1; auto.
  - auto.
  - auto.
  - destruct (L1 H) as [Ha Hb]. destruct L2 as [Hc Hd]; congruence.
  - destruct (L1 H) as [Ha Hb]. destruct L2 as [Hc Hd]; congruence.
  - auto.
Qed.

Lemma update_existing_strengthens (ex : Conf) (s : Entry) :
  strengthens ex (fst (update_existing ex s)).
Proof.
  pose proof (update_existing_fields ex s) as H. cbv zeta in H.
  destruct H as (Hid & Hname & Hsid & Hlink & Hurl & Htier & Hd & Hs & Hdt & Hl & Hc & Hdisc).
  split; [unfold same_identity; tauto|].
  rewrite Hd, Hs, Hdt, Hl, Hc, Hdisc.
  unfold upd_deadline, upd_startDate, upd_dates, upd_location, upd_country.
  repeat split.
  - intros H. rewrite H. now rewrite andb_false_r.
  - intros H. destruct (get_truthy (s_deadline s)) eqn:E; simpl; [|exact H].
    destruct (deadline_open (c_deadline ex)); [now apply get_truthy_default | exact H].
  - intros H. rewrite H. rewrite (start_vague_false_truthy _ H). simpl.
    rewrite andb_false_r.
    destruct (get_truthy (s_conf_start s)); [reflexivity|].
    now destruct (Py.truthy (s_dates s) && negb (Py.truthy (c_dates ex))).
  - intros H. destruct (get_truthy (s_conf_start s)) eqn:E.
    + destruct (start_vague (c_startDate ex)); [now apply get_truthy_default | exact H].
    + destruct (Py.truthy (s_dates s) && negb (Py.truthy (c_dates ex))); [|exact H].
      destruct (Py.truthy (parse_conf_dates (s_dates s)).1 && _) eqn:E2; [|exact H].
      apply andb_true_iff in E2. now apply truthy_true.
  - intros H. destruct (get_truthy (s_conf_start s)) eqn:E.
    + destruct (start_vague (c_startDate ex) && get_truthy (s_conf_display s)) eqn:E2; [|exact H].
      apply andb_true_iff in E2. now apply get_truthy_default.
    + destruct (Py.truthy (s_dates s) && negb (Py.truthy (c_dates ex))); [|exact H].
      destruct (Py.truthy (parse_conf_dates (s_dates s)).2) eqn:E2; [|exact H].
      now apply truthy_true.
  - apply truthy_true in H. rewrite H. now rewrite andb_false_r.
  - apply truthy_true in H. rewrite H. now rewrite andb_false_r.
  - intros d. apply add_tags_incl.
Qed.

Lemma fill_deadline_pointwise (existing : list Conf) (sid deadline : string) :
  deadline <> "" ->
  forall (i : nat) (r : Conf),
    existing !! i = Some r ->
    exists r', fill_deadline existing sid deadline !! i = Some r' /\ strengthens r r'.
Proof.
  intros Hd. induction existing as [|c rest IH]; intros i r Hi; [discriminate|].
  simpl. destruct (String.eqb (c_sid c) sid && deadline_open (c_deadline c)) eqn:E.
  - destruct i as [|i]; simpl in *; [|eauto using strengthens_refl].
    injection Hi as <-. eexists; split; [reflexivity|].
    apply andb_true_iff in E as [_ E].
    unfold strengthens, same_identity; simpl. repeat split; auto; congruence.
  - destruct i as [|i]; simpl in *; [eauto using strengthens_refl | eauto].
Qed.

Lemma fill_conf_date_pointwise (existing : list Conf) (sid conf_start conf_display : string) :
  conf_start <> "" ->
  forall (i : nat) (r : Conf),
    existing !! i = Some r ->
    exists r', fill_conf_date existing sid conf_start conf_display !! i = Some r'
               /\ strengthens r r'.
Proof.
  intros Hd. induction existing as [|c rest IH]; intros i r Hi; [discriminate|].
  simpl. destruct (String.eqb (c_sid c) sid) eqn:E.
  - destruct i as [|i]; simpl in *; [|eauto using strengthens_refl].
    injection Hi as <-. eexists; split; [reflexivity|].
    destruct (start_vague (c_startDate c)) eqn:Ev; [|apply strengthens_refl].
    destruct (Py.truthy conf_display) eqn:Et;
      unfold strengthens, same_identity; simpl; repeat split; auto; try congruence.
    intros _. now apply truthy_true.
  - destruct i as [|i]; simpl in *; [eauto using strengthens_refl | eauto].
Qed.

(** ** New records and their ids *)

Lemma fold_left_max_ge (l : list Z) :
  forall a : Z,
    (a <= fold_left Z.max l a)%Z /\ Forall (fun x => (x <= fold_left Z.max l a)%Z) l.
Proof.
  induction l as [|x l IH]; intros a; simpl; [split; [lia | constructor]|].
  destruct (IH (Z.max a x)) as [H1 H2].
  split; [lia|]. constructor; [lia | exact H2].
Qed.

Lemma max_id_bound (existing : list Conf) :
  Forall (fun c => (c_id c <= max_id existing)%Z) existing.
Proof.
  destruct existing as [|c rest]; [constructor|].
  unfold max_id. destruct (fold_left_max_ge (map c_id rest) (c_id c)) as [H1 H2].
  constructor; [exact H1|].
  apply List.Forall_forall. intros x Hx.
  rewrite List.Forall_forall in H2. apply H2. now apply in_map.
Qed.

Lemma ids_below_init (existing : list Conf) :
  ids_below (existing, (max_id existing + 1)%Z).
Proof.
  unfold ids_below. cbn [fst snd].
  eapply Forall_impl; [apply max_id_bound|]. cbn beta. intros c H. lia.
Qed.

Lemma update_existing_id (ex : Conf) (s : Entry) :
  c_id (fst (update_existing ex s)) = c_id ex.
Proof. apply (update_existing_fields ex s). Qed.

Lemma lstep_ids_below (p : list Conf * Z) (s : Entry) :
  ids_below p -> ids_below (lstep p s).
Proof.
  destruct p as [l n]. unfold ids_below. cbn [fst snd]. intros H.
  destruct (lstep_cases l n s) as [[_ ->]|[(_ & j & ex & _ & Hex & _ & ->)|(_ & _ & ->)]];
    cbn [fst snd].
  - exact H.
  - apply Forall_insert; [exact H|].
    rewrite update_existing_id.
    rewrite List.Forall_forall in H. apply H.
    apply list_elem_of_In. eapply list_elem_of_lookup_2; eauto.
  - apply Forall_app. split.
    + eapply Forall_impl; [exact H|]. cbn beta. intros c Hc. lia.
    + constructor; [|constructor]. rewrite new_conf_id. lia.
Qed.

Lemma lrun_ids_below (scraped : list Entry) :
  forall p, ids_below p -> ids_below (lrun p scraped).
Proof.
  induction scraped as [|s scraped IH]; intros p H; [exact H|].
  apply (IH (lstep p s)). now apply lstep_ids_below.
Qed.

(** A property that new records have and updates keep holds of every record
    that the merge has appended. *)
Section Created.
Variable Q : Conf -> Prop.
Hypothesis Q_new : forall n s, Q (new_conf n s).
Hypothesis Q_update : forall ex s, Q ex -> Q (fst (update_existing ex s)).

Lemma lstep_created (k : nat) (l : list Conf) (n : Z) (s : Entry) :
  created_ok Q k l -> created_ok Q k (fst (lstep (l, n) s)).
Proof.
  intros H.
  destruct (lstep_cases l n s) as [[_ ->]|[(_ & j & ex & _ & Hex & _ & ->)|(_ & _ & ->)]];
    cbn [fst].
  - exact H.
  - intros i c Hk Hi. destruct (decide (j = i)) as [->|Hne].
    + rewrite list_lookup_insert_eq in Hi by (eapply lookup_lt_Some; eauto).
      injection Hi as <-. apply Q_update. eapply H; eauto.
    + rewrite list_lookup_insert_ne in Hi by exact Hne. eapply H; eauto.
  - intros i c Hk Hi. apply lookup_app_Some in Hi as [Hi|[Hlen Hi]]; [eapply H; eauto|].
    apply list_lookup_singleton_Some in Hi as [_ <-]. apply Q_new.
Qed.

Lemma lrun_created (k : nat) (scraped : list Entry) :
  forall (l : list Conf) (n : Z),
    created_ok Q k l -> created_ok Q k (fst (lrun (l, n) scraped)).
Proof.
  induction scraped as [|s scraped IH]; intros l n H; [exact H|].
  change (lrun (l, n) (s :: scraped)) with (lrun (lstep (l, n) s) scraped).
  pose proof (lstep_created k l n s H) as H1.
  destruct (lstep (l, n) s) as [l1 n1]. now apply IH.
Qed.

Lemma merge_created (existing : list Conf) (scraped : list Entry) (i : nat) (c : Conf) :
  length existing <= i ->
  merge_scraped_into_existing existing scraped !! i = Some c -> Q c.
Proof.
  rewrite merge_as_lrun. intros Hi Hc.
  eapply (lrun_created (length existing)); eauto.
  intros j c' Hj Hc'. apply lookup_lt_Some in Hc'. lia.
Qed.
End Created.

Lemma add_tags_nonempty (ds disc : list string) : disc <> [] -> add_tags ds disc <> [].
Proof.
  destruct disc as [|d disc]; [congruence|]. intros _ H.
  pose proof (add_tags_incl ds (d :: disc) d (or_introl eq_refl)) as Hin.
  rewrite H in Hin. destruct Hin.
Qed.

Lemma consistent_loop (existing : list Conf) (before : list Entry) :
  let st := merge_loop (merge_init existing) before in
  consistent st /\ ids_below (st_existing st, st_next_id st).
Proof.
  cbv zeta.
  destruct (merge_loop_lrun before (merge_init existing) (consistent_init existing)) as [Hc Heq].
  split; [exact Hc|]. rewrite Heq. apply lrun_ids_below. apply ids_below_init.
Qed.

Lemma merge_single (existing : list Conf) (s : Entry) (i : nat) (r : Conf) :
  sid_unique existing -> existing !! i = Some r ->
  c_sid r = s_sid s -> s_sid s <> "" ->
  merge_scraped_into_existing existing [s] = <[i := fst (update_existing r s)]> existing.
Proof.
  intros Hu Hi Hs Hne. rewrite merge_as_lrun. unfold lrun, lstep. cbn [fold_left].
  assert (Py.truthy (s_sid s) = true) as -> by now apply truthy_true.
  cbn [negb]. rewrite <- Hs.
  rewrite (last_index_unique existing i r Hu Hi) by congruence.
  now rewrite Hi.
Qed.

(** ** C2: the deadline *)

(** C2 (counterexample). A stored record whose deadline is empty, merged
    with an entry of its sid whose deadline is the literal "TBD": the
    entry carries no concrete deadline, and the field is overwritten all the
    same, from the empty string to "TBD". *)
Lemma deadline_overwritten_by_tbd :
  deadline_open (c_deadline (stored "12345" "" "")) = true /\
  s_deadline (set_entry_deadline "TBD" entry_12345) = Some "TBD" /\
  map c_deadline
      (merge_scraped_into_existing [stored "12345" "" ""]
                                   [set_entry_deadline "TBD" entry_12345]) = ["TBD"] /\
  map c_deadline [stored "12345" "" ""] = [""].
Proof. repeat split; vm_compute; reflexivity. Qed.

(** C2 (amended). A record whose deadline is a concrete date (non-empty and
    not "TBD") keeps it through the merge of any batch, and through the
    detail pass of a full run. Merging one entry into a store with unique
    sids overwrites the deadline of the record of that sid exactly when the
    current value is empty or "TBD" and the entry carries a non-empty
    deadline, which the code does not require to differ from "TBD". *)
Theorem deadline_only_filled_when_open :
  (forall (existing : list Conf) (scraped : list Entry) (i : nat) (r : Conf),
      existing !! i = Some r -> deadline_open (c_deadline r) = false ->
      exists r', merge_scraped_into_existing existing scraped !! i = Some r' /\
                 c_deadline r' = c_deadline r) /\
  (forall (existing : list Conf) (sid deadline : string) (i : nat) (r : Conf),
      existing !! i = Some r -> deadline_open (c_deadline r) = false ->
      fill_deadline existing sid deadline !! i = Some r) /\
  (forall (existing : list Conf) (s : Entry) (i : nat) (r : Conf),
      sid_unique existing -> existing !! i = Some r ->
      c_sid r = s_sid s -> s_sid s <> "" ->
      exists r', merge_scraped_into_existing existing [s] !! i = Some r' /\
                 c_deadline r' =
                 if deadline_open (c_deadline r) && get_truthy (s_deadline s)
                 then default "" (s_deadline s) else c_deadline r).
Proof.
  split; [|split].
  - intros existing scraped i r Hi Hd.
    destruct (merge_pointwise strengthens strengthens_refl strengthens_trans
                update_existing_strengthens existing scraped i r Hi) as (r' & Hr' & Hs).
    exists r'. split; [exact Hr'|]. now apply Hs.
  - intros existing sid deadline. induction existing as [|c rest IH]; intros i r Hi Hd;
      [discriminate|].
    simpl. destruct i as [|i]; simpl in Hi.
    + injection Hi as ->. rewrite Hd, andb_false_r. reflexivity.
    + destruct (String.eqb (c_sid c) sid && deadline_open (c_deadline c)); simpl; auto.
  - intros existing s i r Hu Hi Hs Hne.
    rewrite (merge_single existing s i r Hu Hi Hs Hne).
    rewrite list_lookup_insert_eq by (eapply lookup_lt_Some; eauto).
    eexists; split; [reflexivity|].
    destruct (update_existing_fields r s) as (_ & _ & _ & _ & _ & _ & Hd & _).
    rewrite Hd. unfold upd_deadline. now rewrite andb_comm.
Qed.

(** The example of section 8: the record of sid "12345" takes the deadline
    "2026-05-01" while its own is "TBD", and keeps it when an entry with
    "2026-06-01" comes. *)
Lemma deadline_only_filled_when_open_witness :
  (exists r', merge_scraped_into_existing [stored "12345" "2026-05-01" ""]
                [set_entry_deadline "2026-06-01" entry_12345] !! 0 = Some r' /\
              c_deadline r' = "2026-05-01") /\
  fill_deadline [stored "12345" "2026-05-01" ""] "12345" "2026-06-01" !! 0
    = Some (stored "12345" "2026-05-01" "") /\
  (exists r', merge_scraped_into_existing [stored "12345" "TBD" ""]
                [set_entry_deadline "2026-05-01" entry_12345] !! 0 = Some r' /\
              c_deadline r' = "2026-05-01").
Proof.
  destruct deadline_only_filled_when_open as (Hkeep & Hfill & Hone).
  split; [|split].
  - apply (Hkeep [stored "12345" "2026-05-01" ""] _ 0 (stored "12345" "2026-05-01" ""));
      reflexivity.
  - apply (Hfill [stored "12345" "2026-05-01" ""] "12345" "2026-06-01" 0); reflexivity.
  - apply (Hone [stored "12345" "TBD" ""] (set_entry_deadline "2026-05-01" entry_12345) 0
                (stored "12345" "TBD" "")); try reflexivity; try discriminate.
    intros [|i] [|j] ci cj Hi Hj; simpl in *; try discriminate; reflexivity.
Defined.

(** ** C5: the start date and the other only-strengthen fields *)

(** C5. Merging an entry that carries a start date from its detail page
    into a store with unique sids overwrites the start date of the record
    of that sid exactly when the current one is empty or ends in "-01"; and
    through any sequence of merges, and through the detail pass of a full
    run, every record is only strengthened: a concrete deadline, a start
    date that does not end in "-01" and a known location stay as they are,
    no field that holds a value loses it, and no discipline tag is removed. *)
Theorem start_date_only_strengthened :
  (forall (existing : list Conf) (s : Entry) (conf_start : string) (i : nat) (r : Conf),
      sid_unique existing -> existing !! i = Some r ->
      c_sid r = s_sid s -> s_sid s <> "" ->
      s_conf_start s = Some conf_start -> conf_start <> "" ->
      exists r', merge_scraped_into_existing existing [s] !! i = Some r' /\
                 c_startDate r' =
                 if start_vague (c_startDate r) then conf_start else c_startDate r) /\
  (forall (existing : list Conf) (batches : list (list Entry)) (i : nat) (r : Conf),
      existing !! i = Some r ->
      exists r', merge_all existing batches !! i = Some r' /\ strengthens r r') /\
  (forall (existing : list Conf) (sid conf_start conf_display deadline : string)
          (i : nat) (r : Conf),
      existing !! i = Some r -> conf_start <> "" -> deadline <> "" ->
      exists r',
        fill_conf_date (fill_deadline existing sid deadline) sid conf_start conf_display !! i
          = Some r' /\ strengthens r r').
Proof.
  split; [|split].
  - intros existing s cs i r Hu Hi Hs Hne Hcs Hcsne.
    rewrite (merge_single existing s i r Hu Hi Hs Hne).
    rewrite list_lookup_insert_eq by (eapply lookup_lt_Some; eauto).
    eexists; split; [reflexivity|].
    destruct (update_existing_fields r s) as (_ & _ & _ & _ & _ & _ & _ & Hst & _).
    rewrite Hst. unfold upd_startDate. rewrite Hcs. cbn [get_truthy default].
    apply truthy_true in Hcsne. now rewrite Hcsne.
  - intros existing batches i r Hi.
    apply (merge_all_pointwise strengthens strengthens_refl strengthens_trans
             update_existing_strengthens batches existing i r Hi).
  - intros existing sid cs cd d i r Hi Hcs Hd.
    destruct (fill_deadline_pointwise existing sid d Hd i r Hi) as (r1 & H1 & S1).
    destruct (fill_conf_date_pointwise _ sid cs cd Hcs i r1 H1) as (r2 & H2 & S2).
    exists r2. split; [exact H2|]. eapply strengthens_trans; eauto.
Qed.

(** A record with the month-only start date "2026-07-01" takes "2026-07-11"
    from the detail page; merged twice more, it keeps every value. *)
Lemma start_date_only_strengthened_witness :
  (exists r', merge_scraped_into_existing [stored "12345" "TBD" "2026-07-01"]
                [set_entry_conf "2026-07-11" "Jul 11" entry_12345] !! 0 = Some r' /\
              c_startDate r' = "2026-07-11") /\
  (exists r', merge_all [stored "12345" "2026-05-01" "2026-07-11"]
                [[set_entry_conf "2026-08-01" "Aug 1" entry_12345];
                 [set_entry_deadline "2026-06-01" entry_12345]] !! 0 = Some r' /\
              strengthens (stored "12345" "2026-05-01" "2026-07-11") r') /\
  (exists r', fill_conf_date (fill_deadline [stored "12345" "TBD" "2026-07-01"]
                                "12345" "2026-05-01")
                "12345" "2026-07-11" "Jul 11" !! 0 = Some r' /\
              strengthens (stored "12345" "TBD" "2026-07-01") r').
Proof.
  destruct start_date_only_strengthened as (Hone & Hall & Hfill).
  split; [|split].
  - apply (Hone [stored "12345" "TBD" "2026-07-01"]
                (set_entry_conf "2026-07-11" "Jul 11" entry_12345) "2026-07-11" 0
                (stored "12345" "TBD" "2026-07-01")); try reflexivity; try discriminate.
    intros [|i] [|j] ci cj Hi Hj; simpl in *; try discriminate; reflexivity.
  - apply (Hall [stored "12345" "2026-05-01" "2026-07-11"]). reflexivity.
  - apply (Hfill [stored "12345" "TBD" "2026-07-01"]); [reflexivity | discriminate | discriminate].
Defined.

(** ** C8: entries without sid, and new records *)

(** C8. At any point of the merge loop, an entry whose sid is empty leaves
    the whole state as it is; an entry whose sid no record of the store
    carries appends exactly one record, filed under that sid, whose id is
    the next sequential one and lies above every id in the store, and whose
    deadline is "TBD" when the entry has none. An entry with a sid and
    without deadline, merged into the empty store, gives one record with id
    1 and deadline "TBD". *)
Theorem merge_new_records (existing : list Conf) (before : list Entry) (s : Entry) :
  let st := merge_loop (merge_init existing) before in
  (s_sid s = "" -> merge_step st s = st) /\
  (s_sid s <> "" -> ~ In (s_sid s) (map c_sid (st_existing st)) ->
     exists new,
       st_existing (merge_step st s) = st_existing st ++ [new] /\
       c_sid new = s_sid s /\
       c_id new = st_next_id st /\
       st_next_id (merge_step st s) = (c_id new + 1)%Z /\
       Forall (fun c => (c_id c < c_id new)%Z) (st_existing st) /\
       (s_deadline s = None -> c_deadline new = "TBD")) /\
  (s_sid s <> "" -> s_deadline s = None ->
     exists new,
       merge_scraped_into_existing [] [s] = [new] /\
       c_id new = 1%Z /\ c_sid new = s_sid s /\ c_deadline new = "TBD").
Proof.
  cbv zeta. destruct (consistent_loop existing before) as [Hc Hids].
  cbv zeta in Hc, Hids.
  set (st := merge_loop (merge_init existing) before) in *.
  split; [|split].
  - intros Hs. unfold merge_step. now rewrite Hs.
  - intros Hne Hnew. exists (new_conf (st_next_id st) s).
    apply last_index_None in Hnew.
    unfold merge_step.
    assert (Py.truthy (s_sid s) = true) as -> by now apply truthy_true.
    cbn [negb]. rewrite Hc, by_sid_from_lookup, Hnew, lookup_empty.
    cbn [st_existing st_next_id].
    rewrite new_conf_sid, new_conf_id, new_conf_deadline.
    repeat split; try reflexivity; [exact Hids|].
    now intros ->.
  - intros Hne Hd. exists (new_conf 1 s).
    rewrite new_conf_sid, new_conf_id, new_conf_deadline, Hd.
    repeat split; try reflexivity.
    unfold merge_scraped_into_existing, merge_loop, merge_init, merge_step.
    cbn [fold_left st_existing st_by_sid st_next_id by_sid_from max_id].
    assert (Py.truthy (s_sid s) = true) as -> by now apply truthy_true.
    cbn [negb]. rewrite lookup_empty. reflexivity.
Qed.

(** The example of section 8, an entry without sid, and a second new sid
    after the first. *)
Lemma merge_new_records_witness :
  merge_step (merge_init []) (listed "" "Annual Meeting on Asset Pricing") = merge_init [] /\
  (exists new,
     st_existing (merge_step (merge_loop (merge_init []) [entry_12345])
                             (listed "67890" "Workshop on Banking")) =
     st_existing (merge_loop (merge_init []) [entry_12345]) ++ [new] /\
     c_sid new = "67890" /\
     c_id new = 2%Z /\
     st_next_id (merge_step (merge_loop (merge_init []) [entry_12345])
                            (listed "67890" "Workshop on Banking")) = (c_id new + 1)%Z /\
     Forall (fun c => (c_id c < c_id new)%Z)
            (st_existing (merge_loop (merge_init []) [entry_12345])) /\
     (s_deadline (listed "67890" "Workshop on Banking") = None -> c_deadline new = "TBD")) /\
  (exists new,
     merge_scraped_into_existing [] [entry_12345] = [new] /\
     c_id new = 1%Z /\ c_sid new = "12345" /\ c_deadline new = "TBD").
Proof.
  split; [|split].
  - apply (merge_new_records [] [] (listed "" "Annual Meeting on Asset Pricing")).
    reflexivity.
  - apply (merge_new_records [] [entry_12345] (listed "67890" "Workshop on Banking")).
    + discriminate.
    + vm_compute. intros [H|[]]. discriminate.
  - apply (merge_new_records [] [] entry_12345); [discriminate | reflexivity].
Defined.

(** ** C10: discipline tags *)

(** C10. The list that [detect_disciplines] returns is never empty, is
    strictly ascending (hence sorted and without duplicate), and is ["fin"]
    when neither the category nor the name holds a finance, accounting or
    economics signal; every record that the merger appends to the store
    carries at least one tag, whatever entries follow it in the batch. *)
Theorem detect_disciplines_default :
  (forall category name : string,
      detect_disciplines category name <> [] /\
      StronglySorted (fun a b => String.ltb a b = true) (detect_disciplines category name) /\
      NoDup (detect_disciplines category name)) /\
  (forall category name : string,
      no_signal category name = true -> detect_disciplines category name = ["fin"]) /\
  (forall (existing : list Conf) (scraped : list Entry) (i : nat) (c : Conf),
      length existing <= i ->
      merge_scraped_into_existing existing scraped !! i = Some c -> c_disc c <> []).
Proof.
  split; [|split].
  - intros category name. split; [apply detect_disciplines_nonempty|].
    pose proof (detect_disciplines_cases category name) as H.
    unfold discipline_outcomes in H. simpl in H.
    destruct H as [<-|[<-|[<-|[<-|[<-|[<-|[<-|[]]]]]]]];
      (split; [repeat constructor | repeat constructor; simpl; intros H;
                 rewrite ?list_elem_of_In in H; simpl in H; intuition discriminate]).
  - apply detect_disciplines_no_signal.
  - intros existing scraped i c.
    apply (merge_created (fun c => c_disc c <> [])).
    + intros n s. rewrite new_conf_disc. apply detect_disciplines_nonempty.
    + intros ex s H.
      destruct (update_existing_fields ex s) as (_ & _ & _ & _ & _ & _ & _ & _ & _ & _ & _ & Hd).
      rewrite Hd. now apply add_tags_nonempty.
Qed.

(** An entry of the "Law" network named "Annual Meeting" shows no signal
    and is filed under "fin"; merged into the empty store, it gives a record
    with a tag. *)
Lemma detect_disciplines_default_witness :
  detect_disciplines "Law" "Annual Meeting" = ["fin"] /\
  (exists c, merge_scraped_into_existing [] [entry_12345] !! 0 = Some c /\ c_disc c <> []).
Proof.
  destruct detect_disciplines_default as (_ & Hdefault & Hcreated).
  split.
  - apply (Hdefault "Law" "Annual Meeting"). vm_compute; reflexivity.
  - destruct (merge_scraped_into_existing [] [entry_12345] !! 0) as [c|] eqn:E;
      [|vm_compute in E; discriminate].
    exists c. split; [reflexivity|]. apply (Hcreated [] [entry_12345] 0 c); [simpl; lia | exact E].
Defined.

(** ** C1: merging the same batch again *)

Lemma append_nonempty (a b : string) (c : ascii) : a +:+ String c b <> "".
Proof. destruct a; discriminate. Qed.

(** A start date comes with a display string. *)
Lemma parse_conf_dates_display (date_str : string) :
  snd (parse_conf_dates date_str) = "" -> fst (parse_conf_dates date_str) = "".
Proof.
  unfold parse_conf_dates.
  destruct (negb (Py.truthy (Py.strip date_str))) eqn:Et; [reflexivity|].
  destruct (Re.rmatch Re.NOFLAG _ (Py.strip date_str)) as [m|].
  - destruct (month_of (grp 2 m)) as [m1|].
    + destruct (month_of (grp 5 m)) as [m2|].
      * cbn [fst snd].
        destruct (String.eqb _ _); intros H; exfalso; revert H; apply append_nonempty.
      * destruct (Re.rmatch Re.NOFLAG _ (Py.strip date_str)) as [m'|]; [|reflexivity].
        destruct (month_of (grp 2 m')); [|reflexivity].
        cbn [fst snd]. intros H; exfalso; revert H; apply append_nonempty.
    + destruct (Re.rmatch Re.NOFLAG _ (Py.strip date_str)) as [m'|]; [|reflexivity].
      destruct (month_of (grp 2 m')); [|reflexivity].
      cbn [fst snd]. intros H; exfalso; revert H; apply append_nonempty.
  - destruct (Re.rmatch Re.NOFLAG _ (Py.strip date_str)) as [m'|]; [|reflexivity].
    destruct (month_of (grp 2 m')); [|reflexivity].
    cbn [fst snd]. intros H; exfalso; revert H; apply append_nonempty.
Qed.

Lemma conf_eq (a b : Conf) :
  c_id a = c_id b -> c_name a = c_name b -> c_dates a = c_dates b ->
  c_startDate a = c_startDate b -> c_location a = c_location b ->
  c_country a = c_country b -> c_disc a = c_disc b -> c_sid a = c_sid b ->
  c_ssrnLink a = c_ssrnLink b -> c_deadline a = c_deadline b ->
  c_url a = c_url b -> c_tier a = c_tier b -> a = b.
Proof. destruct a, b; simpl; intros; subst; reflexivity. Qed.

Lemma add_tags_covers (ds disc : list string) (d : string) :
  In d ds -> In d (add_tags ds disc).
Proof.
  unfold add_tags. revert disc.
  induction ds as [|d' ds IH]; intros disc Hin; simpl; [destruct Hin|].
  destruct Hin as [->|Hin]; [|now apply IH].
  destruct (set_mem d disc) eqn:E.
  - apply (add_tags_incl ds disc d). now apply set_mem_In.
  - apply (add_tags_incl ds). apply in_or_app. right. now left.
Qed.

Lemma add_tags_saturated (ds disc : list string) :
  (forall d, In d ds -> In d disc) -> add_tags ds disc = disc.
Proof.
  unfold add_tags.
  induction ds as [|d ds IH]; intros H; simpl; [reflexivity|].
  assert (set_mem d disc = true) as -> by (apply set_mem_In, H; now left).
  apply IH. intros d' Hd'. apply H. now right.
Qed.

Lemma new_conf_fields (n : Z) (s : Entry) :
  let c := new_conf n s in
  c_location c = s_location s /\
  c_country c = detect_country (s_location s) /\
  c_startDate c =
    (if get_truthy (s_conf_start s) then default "" (s_conf_start s)
     else fst (parse_conf_dates (s_dates s))) /\
  c_dates c =
    (let display_dates :=
       if get_truthy (s_conf_start s)
       then default (snd (parse_conf_dates (s_dates s))) (s_conf_display s)
       else snd (parse_conf_dates (s_dates s)) in
     if Py.truthy display_dates then display_dates else s_dates s).
Proof.
  unfold new_conf. destruct (parse_conf_dates (s_dates s)) as [sd disp].
  destruct (get_truthy (s_conf_start s)); cbn; repeat split; reflexivity.
Qed.

Lemma replay_rel_final (x f : Conf) : replay_rel x f f.
Proof.
  unfold replay_rel, same_identity. repeat split; auto.
Qed.

Lemma replay_rel_eq (x y : Conf) : replay_rel x y x -> y = x.
Proof.
  intros ((Hid & Hname & Hsid & Hlink & Hurl & Htier) & Hd & Hl & Hc & Hdisc & _ & _ & Hhigh & Hlow).
  assert (c_startDate y = c_startDate x /\ c_dates y = c_dates x) as [Hs Hdt].
  { destruct (start_vague (c_startDate x)) eqn:E.
    - destruct (Hlow eq_refl) as [[?|?] [?|?]]; auto.
    - now apply Hhigh. }
  apply conf_eq; auto.
Qed.

(** The start date and the display dates of the replayed record when the
    entry carries a detail-page start date. *)
Lemma replay_update_detail (x y f : Conf) (s : Entry) :
  get_truthy (s_conf_start s) = true ->
  replay_rel x y f ->
  strengthens (fst (update_existing x s)) f ->
  let x' := fst (update_existing x s) in
  let y' := fst (update_existing y s) in
  (c_startDate f <> "" -> c_startDate y' <> "") /\
  (c_dates f <> "" -> c_dates y' <> "") /\
  (start_vague (c_startDate f) = false ->
     c_startDate y' = c_startDate f /\ c_dates y' = c_dates f) /\
  (start_vague (c_startDate f) = true ->
     (c_startDate y' = c_startDate x' \/ c_startDate y' = c_startDate f) /\
     (c_dates y' = c_dates x' \/ c_dates y' = c_dates f)).
Proof.
  intros Ha (_ & _ & _ & _ & _ & S0 & D0 & Hhigh & Hlow) Hst. cbv zeta.
  destruct (update_existing_fields x s) as (_ & _ & _ & _ & _ & _ & _ & Hxs & Hxd & _).
  destruct (update_existing_fields y s) as (_ & _ & _ & _ & _ & _ & _ & Hys & Hyd & _).
  destruct Hst as (_ & _ & _ & Habs & _).
  unfold upd_startDate, upd_dates in Hxs, Hxd, Hys, Hyd.
  rewrite Ha in Hxs, Hxd, Hys, Hyd.
  pose proof (get_truthy_default _ Ha) as Hcs.
  destruct (start_vague (c_startDate f)) eqn:Ef.
  - (* the final start date is vague: both passes take the date of the entry *)
    destruct (Hlow eq_refl) as [Hs Hd].
    assert (start_vague (c_startDate x) = true) as Ex.
    { destruct (start_vague (c_startDate x)) eqn:Ex; [reflexivity|].
      rewrite <- Hxs in Ex. rewrite <- (Habs Ex) in Ex. congruence. }
    assert (start_vague (c_startDate y) = true) as Ey.
    { destruct Hs as [->| ->]; assumption. }
    rewrite Ex in Hxs, Hxd. rewrite Ey in Hys, Hyd. cbn [andb] in Hxd, Hyd.
    rewrite Hxs, Hxd, Hys, Hyd.
    repeat split; try discriminate; auto.
    + destruct (get_truthy (s_conf_display s)) eqn:Ed; [|auto].
      intros _. now apply get_truthy_default.
    + destruct (get_truthy (s_conf_display s)); auto.
  - destruct (Hhigh eq_refl) as [Hs Hd].
    assert (start_vague (c_startDate y) = false) as Ey by now rewrite Hs.
    rewrite Ey in Hys, Hyd. cbn [andb] in Hyd. rewrite Hys, Hyd.
    repeat split; try discriminate; auto.
Qed.

Lemma open_nonempty_tbd (d : string) : deadline_open d = true -> d <> "" -> d = "TBD".
Proof.
  unfold deadline_open. intros H Hne. apply orb_true_iff in H as [H|H].
  - apply negb_true_iff, truthy_false in H. contradiction.
  - now apply String.eqb_eq.
Qed.

(** An entry without detail-page start date changes neither the start date
    nor the display dates of the replayed record. *)
Lemma replay_update_listing (x y f : Conf) (s : Entry) :
  get_truthy (s_conf_start s) = false ->
  replay_rel x y f ->
  strengthens (fst (update_existing x s)) f ->
  let x' := fst (update_existing x s) in
  let y' := fst (update_existing y s) in
  (c_startDate y' = c_startDate y /\ c_dates y' = c_dates y) /\
  (start_vague (c_startDate f) = true ->
     (c_startDate y = c_startDate x' \/ c_startDate y = c_startDate f) /\
     (c_dates y = c_dates x' \/ c_dates y = c_dates f)).
Proof.
  intros Ha (_ & _ & _ & _ & _ & S0 & D0 & Hhigh & Hlow) Hst. cbv zeta.
  destruct (update_existing_fields x s) as (_ & _ & _ & _ & _ & _ & _ & Hxs & Hxd & _).
  destruct (update_existing_fields y s) as (_ & _ & _ & _ & _ & _ & _ & Hys & Hyd & _).
  destruct Hst as (_ & _ & _ & _ & Hsne & Hdne & _).
  unfold upd_startDate, upd_dates in Hxs, Hxd, Hys, Hyd.
  rewrite Ha in Hxs, Hxd, Hys, Hyd.
  split.
  - rewrite Hys, Hyd.
    destruct (Py.truthy (s_dates s) && negb (Py.truthy (c_dates y))) eqn:Ey; [|auto].
    apply andb_true_iff in Ey as [Ed Ey]. apply negb_true_iff, truthy_false in Ey.
    assert (c_dates f = "") as Hf.
    { destruct (string_dec (c_dates f) "") as [?|Hne]; [assumption|].
      now apply D0 in Hne. }
    assert (c_dates (fst (update_existing x s)) = "") as Hx'.
    { destruct (string_dec (c_dates (fst (update_existing x s))) "") as [?|Hne]; [assumption|].
      now apply Hdne in Hne. }
    assert (snd (parse_conf_dates (s_dates s)) = "") as Hdisp.
    { rewrite Hxd, Ed in Hx'. cbn [andb] in Hx'.
      destruct (Py.truthy (c_dates x)) eqn:Ex; cbn [negb] in Hx'.
      - apply truthy_true in Ex. contradiction.
      - destruct (Py.truthy (snd (parse_conf_dates (s_dates s)))) eqn:Edisp.
        + exact Hx'.
        + now apply truthy_false. }
    rewrite (parse_conf_dates_display _ Hdisp), Hdisp. cbn. auto.
  - intros Ef. destruct (Hlow Ef) as [Hs Hd]. split.
    + destruct Hs as [Hs|Hs]; [|now right].
      destruct (string_dec (c_startDate (fst (update_existing x s))) (c_startDate x))
        as [Heq|Hneq]; [left; congruence|].
      exfalso.
      assert (c_startDate (fst (update_existing x s)) <> "" /\ c_startDate x = "") as [H1 H2].
      { rewrite Hxs in Hneq |- *.
        destruct (Py.truthy (s_dates s) && negb (Py.truthy (c_dates x))); [|congruence].
        destruct (Py.truthy (fst (parse_conf_dates (s_dates s)))
                  && negb (Py.truthy (c_startDate x))) eqn:E; [|congruence].
        apply andb_true_iff in E as [E1 E2].
        apply negb_true_iff, truthy_false in E2. apply truthy_true in E1. auto. }
      apply S0; [now apply Hsne | congruence].
    + destruct Hd as [Hd|Hd]; [|now right].
      destruct (string_dec (c_dates (fst (update_existing x s))) (c_dates x))
        as [Heq|Hneq]; [left; congruence|].
      exfalso.
      assert (c_dates (fst (update_existing x s)) <> "" /\ c_dates x = "") as [H1 H2].
      { rewrite Hxd in Hneq |- *.
        destruct (Py.truthy (s_dates s) && negb (Py.truthy (c_dates x))) eqn:E; [|congruence].
        apply andb_true_iff in E as [E1 E2].
        apply negb_true_iff, truthy_false in E2.
        destruct (Py.truthy (snd (parse_conf_dates (s_dates s)))) eqn:E3; [|congruence].
        apply truthy_true in E3. auto. }
      apply D0; [now apply Hdne | congruence].
Qed.

(** The other fields of the replayed record stay those of the final record. *)
Lemma replay_update_rest (x y f : Conf) (s : Entry) :
  replay_rel x y f ->
  strengthens (fst (update_existing x s)) f ->
  let y' := fst (update_existing y s) in
  same_identity f y' /\
  c_deadline y' = c_deadline f /\
  c_location y' = c_location f /\
  c_country y' = c_country f /\
  c_disc y' = c_disc f.
Proof.
  intros ((Hid & Hname & Hsid & Hlink & Hurl & Htier) & Hd & Hl & Hc & Hdisc & _) Hst.
  cbv zeta.
  destruct (update_existing_fields x s)
    as (_ & _ & _ & _ & _ & _ & Hxd & _ & _ & Hxl & _ & Hxdisc).
  destruct (update_existing_fields y s)
    as (Hyid & Hyname & Hysid & Hylink & Hyurl & Hytier & Hyd & _ & _ & Hyl & Hyc & Hydisc).
  destruct Hst as (_ & Hdabs & Hdne & _ & _ & _ & Hlabs & Hincl).
  unfold upd_deadline in Hxd, Hyd. unfold upd_location in Hxl, Hyl. unfold upd_country in Hyc.
  split; [unfold same_identity; repeat split; congruence|].
  split; [|split; [|split]].
  - rewrite Hyd, Hd.
    destruct (get_truthy (s_deadline s)) eqn:Es; cbn [andb]; [|reflexivity].
    destruct (deadline_open (c_deadline f)) eqn:Ef; [|reflexivity].
    pose proof (get_truthy_default _ Es) as Hv.
    cbn [andb] in Hxd.
    destruct (deadline_open (c_deadline x)) eqn:Ex.
    + rewrite Hxd in Hdabs, Hdne.
      destruct (deadline_open (default "" (s_deadline s))) eqn:Ev.
      * rewrite (open_nonempty_tbd _ Ev Hv).
        symmetry. apply open_nonempty_tbd; [exact Ef | now apply Hdne].
      * symmetry. now apply Hdabs.
    + rewrite Hxd in Hdabs. rewrite (Hdabs Ex) in Ef. congruence.
  - rewrite Hyl, Hl.
    destruct (Py.truthy (s_location s)) eqn:Es; [|reflexivity].
    destruct (Py.truthy (c_location f)) eqn:Ef; [reflexivity|]. exfalso.
    apply truthy_false in Ef.
    assert (c_location (fst (update_existing x s)) <> "") as Hx'.
    { rewrite Hxl; rewrite ?Es; cbn [andb].
      destruct (Py.truthy (c_location x)) eqn:Ex; cbn [negb]; now apply truthy_true. }
    destruct (Hlabs Hx') as [Heq _]. congruence.
  - rewrite Hyc, Hl, Hc.
    destruct (Py.truthy (s_location s)) eqn:Es; [|reflexivity].
    destruct (Py.truthy (c_location f)) eqn:Ef; [reflexivity|]. exfalso.
    apply truthy_false in Ef.
    assert (c_location (fst (update_existing x s)) <> "") as Hx'.
    { rewrite Hxl; rewrite ?Es; cbn [andb].
      destruct (Py.truthy (c_location x)) eqn:Ex; cbn [negb]; now apply truthy_true. }
    destruct (Hlabs Hx') as [Heq _]. congruence.
  - rewrite Hydisc, Hdisc. apply add_tags_saturated.
    intros d Hin. apply Hincl. rewrite Hxdisc. now apply add_tags_covers.
Qed.

(** The step of the second pass on a record that the first pass updates. *)
Lemma replay_update (x y f : Conf) (s : Entry) :
  replay_rel x y f ->
  strengthens (fst (update_existing x s)) f ->
  replay_rel (fst (update_existing x s)) (fst (update_existing y s)) f.
Proof.
  intros H Hst.
  destruct (replay_update_rest x y f s H Hst) as (Hid & Hd & Hl & Hc & Hdisc).
  unfold replay_rel. repeat (split; [assumption|]).
  destruct (get_truthy (s_conf_start s)) eqn:Ea.
  - apply (replay_update_detail x y f s Ea H Hst).
  - destruct (replay_update_listing x y f s Ea H Hst) as [[Hs Hdt] Hlow].
    rewrite Hs, Hdt.
    destruct H as (_ & _ & _ & _ & _ & S0 & D0 & Hhigh & _). auto.
Qed.

(** The step of the second pass on a record that the first pass creates. *)
Lemma replay_new (n : Z) (s : Entry) (f : Conf) :
  strengthens (new_conf n s) f ->
  replay_rel (new_conf n s) (fst (update_existing f s)) f.
Proof.
  intros ((Hid & Hname & Hsid & Hlink & Hurl & Htier) & Hdabs & Hdne & Hsabs & Hsne & Hdtne
          & Hlabs & Hincl).
  destruct (update_existing_fields f s)
    as (Hyid & Hyname & Hysid & Hylink & Hyurl & Hytier & Hyd & Hys & Hydt & Hyl & Hyc & Hydisc).
  destruct (new_conf_fields n s) as (Hcl & Hcc & Hcs & Hcd). cbv zeta in Hcd.
  rewrite new_conf_deadline in Hdabs, Hdne. rewrite new_conf_disc in Hincl.
  unfold upd_deadline in Hyd. unfold upd_location in Hyl. unfold upd_country in Hyc.
  unfold upd_startDate in Hys. unfold upd_dates in Hydt.
  assert (c_location (fst (update_existing f s)) = c_location f /\
          c_country (fst (update_existing f s)) = c_country f) as [Hl Hc].
  { rewrite Hyl, Hyc.
    destruct (Py.truthy (s_location s)) eqn:Es; [|auto].
    destruct (Py.truthy (c_location f)) eqn:Ef; [auto|]. exfalso.
    apply truthy_false in Ef. apply truthy_true in Es.
    rewrite Hcl in Hlabs. destruct (Hlabs Es) as [Heq _]. congruence. }
  assert (c_deadline (fst (update_existing f s)) = c_deadline f) as Hd.
  { rewrite Hyd.
    destruct (get_truthy (s_deadline s)) eqn:Es; cbn [andb]; [|reflexivity].
    destruct (deadline_open (c_deadline f)) eqn:Ef; [|reflexivity].
    pose proof (get_truthy_default _ Es) as Hv.
    destruct (s_deadline s) as [v|]; [|discriminate]. cbn [default] in *.
    destruct (deadline_open v) eqn:Ev.
    - rewrite (open_nonempty_tbd _ Ev Hv).
      symmetry. apply open_nonempty_tbd; [exact Ef | now apply Hdne].
    - symmetry. now apply Hdabs. }
  assert (c_disc (fst (update_existing f s)) = c_disc f) as Hdisc.
  { rewrite Hydisc. now apply add_tags_saturated. }
  unfold replay_rel.
  split; [unfold same_identity; repeat split; congruence|].
  repeat (split; [assumption|]).
  rewrite Hys, Hydt, Hcs, Hcd.
  destruct (get_truthy (s_conf_start s)) eqn:Ea.
  - pose proof (get_truthy_default _ Ea) as Hcsne.
    destruct (start_vague (c_startDate f)) eqn:Ef; cbn [andb].
    + repeat split; try discriminate; auto.
      * destruct (get_truthy (s_conf_display s)) eqn:Ed; [|auto].
        intros _. now apply get_truthy_default.
      * destruct (get_truthy (s_conf_display s)) eqn:Ed; [|now right].
        left. destruct (s_conf_display s) as [v|]; [|discriminate].
        cbn [from_option get_truthy] in *. unfold id. now rewrite Ed.
    + repeat split; try discriminate; auto.
  - assert (Py.truthy (s_dates s) && negb (Py.truthy (c_dates f)) = false) as ->.
    { destruct (Py.truthy (s_dates s)) eqn:Es; [|reflexivity].
      destruct (Py.truthy (c_dates f)) eqn:Ef; [reflexivity|]. exfalso.
      apply truthy_false in Ef. apply truthy_true in Es.
      rewrite Hcd in Hdtne.
      destruct (Py.truthy (snd (parse_conf_dates (s_dates s)))) eqn:Ep.
      - apply truthy_true in Ep. now apply Hdtne.
      - now apply Hdtne. }
    repeat split; auto.
Qed.

Lemma lstep_update (l : list Conf) (n : Z) (s : Entry) (j : nat) (ex : Conf) :
  s_sid s <> "" -> last_index (s_sid s) l = Some j -> l !! j = Some ex ->
  lstep (l, n) s = (<[j := fst (update_existing ex s)]> l, n).
Proof.
  intros Hne Hj Hex. unfold lstep.
  assert (Py.truthy (s_sid s) = true) as -> by now apply truthy_true.
  cbn [negb]. now rewrite Hj, Hex.
Qed.

Lemma lstep_last_index (l : list Conf) (n : Z) (s : Entry) (k : string) (j : nat) :
  last_index k l = Some j -> last_index k (fst (lstep (l, n) s)) = Some j.
Proof.
  intros Hk.
  destruct (lstep_cases l n s) as [[_ ->]|[(_ & i & ex & _ & Hex & _ & ->)|(_ & Hnone & ->)]];
    cbn [fst].
  - exact Hk.
  - rewrite <- Hk. apply last_index_sids.
    apply (map_sid_insert _ _ ex); [exact Hex | apply update_existing_sid].
  - rewrite last_index_app, new_conf_sid.
    destruct (decide (s_sid s = k)) as [<-|_]; [congruence | exact Hk].
Qed.

Lemma lrun_last_index (scraped : list Entry) :
  forall (l : list Conf) (n : Z) (k : string) (j : nat),
    last_index k l = Some j -> last_index k (fst (lrun (l, n) scraped)) = Some j.
Proof.
  induction scraped as [|s scraped IH]; intros l n k j Hk; [exact Hk|].
  change (lrun (l, n) (s :: scraped)) with (lrun (lstep (l, n) s) scraped).
  pose proof (lstep_last_index l n s k j Hk) as H1.
  destruct (lstep (l, n) s) as [l1 n1]. now apply IH.
Qed.

(** The record at a place of the list and the record at that place after
    the run. *)
Lemma lrun_strengthens (scraped : list Entry) (l : list Conf) (n : Z)
    (i : nat) (x f : Conf) :
  l !! i = Some x -> fst (lrun (l, n) scraped) !! i = Some f -> strengthens x f.
Proof.
  intros Hx Hf.
  destruct (lrun_pointwise strengthens strengthens_refl strengthens_trans
              update_existing_strengthens scraped l n i x Hx) as (f' & Hf' & Hs).
  congruence.
Qed.

Lemma replay_inv_end (X Y : list Conf) : replay_inv X Y X -> Y = X.
Proof.
  intros (Hlen & _ & Hpt). apply list_eq. intros i.
  destruct (Y !! i) as [y|] eqn:Ey, (X !! i) as [x|] eqn:Ex.
  - specialize (Hpt i y x Ey Ex). rewrite Ex in Hpt. f_equal. now apply replay_rel_eq.
  - apply lookup_lt_Some in Ey. apply lookup_ge_None in Ex. lia.
  - apply lookup_lt_Some in Ex. apply lookup_ge_None in Ey. lia.
  - reflexivity.
Qed.

(** One turn of both passes keeps the second pass in step with the first. *)
Lemma replay_inv_step (X Y : list Conf) (n n2 : Z) (s : Entry) (scraped : list Entry) :
  let F := fst (lrun (lstep (X, n) s) scraped) in
  replay_inv X Y F ->
  replay_inv (fst (lstep (X, n) s)) (fst (lstep (Y, n2) s)) F.
Proof.
  cbv zeta. intros (Hlen & Hsids & Hpt).
  destruct (lstep_cases X n s) as [[He HX]|[(Hne & j & ex & Hj & Hex & Hsid & HX)|(Hne & Hnone & HX)]].
  - (* no sid: neither pass moves *)
    rewrite HX in *. unfold lstep at 1.
    rewrite (proj2 (truthy_false _) He). cbn [negb fst].
    split; [exact Hlen | split; [exact Hsids | exact Hpt]].
  - (* the first pass updates the record at j *)
    rewrite HX in *. cbn [fst] in *.
    set (X1 := <[j := fst (update_existing ex s)]> X) in *.
    set (F := fst (lrun (X1, n) scraped)) in *.
    assert (last_index (s_sid s) F = Some j) as HjF.
    { apply lrun_last_index. rewrite <- Hj. apply last_index_sids.
      apply (map_sid_insert _ _ ex); [exact Hex | apply update_existing_sid]. }
    assert (last_index (s_sid s) Y = Some j) as HjY.
    { rewrite <- HjF. now apply last_index_sids. }
    destruct (last_index_lookup _ _ _ HjY) as (y & Hy & _).
    destruct (last_index_lookup _ _ _ HjF) as (f & Hf & _).
    rewrite (lstep_update Y n2 s j y Hne HjY Hy). cbn [fst].
    split; [now rewrite length_insert|].
    split; [rewrite <- Hsids; apply (map_sid_insert _ _ y);
            [exact Hy | apply update_existing_sid]|].
    intros i y1 f1 Hy1 Hf1. destruct (decide (j = i)) as [<-|Hne'].
    + rewrite list_lookup_insert_eq in Hy1 by (eapply lookup_lt_Some; eauto).
      injection Hy1 as <-.
      unfold X1. rewrite list_lookup_insert_eq by (eapply lookup_lt_Some; eauto).
      assert (f1 = f) as -> by congruence.
      apply replay_update.
      * specialize (Hpt j y f Hy Hf). now rewrite Hex in Hpt.
      * apply (lrun_strengthens scraped X1 n j); [|exact Hf].
        unfold X1. apply list_lookup_insert_eq. eapply lookup_lt_Some; eauto.
    + rewrite list_lookup_insert_ne in Hy1 by exact Hne'.
      unfold X1. rewrite list_lookup_insert_ne by exact Hne'.
      now apply Hpt.
  - (* the first pass appends a record, at the place j *)
    rewrite HX in *. cbn [fst] in *.
    set (c := new_conf n s) in *.
    set (F := fst (lrun (X ++ [c], (n + 1)%Z) scraped)) in *.
    assert (last_index (s_sid s) F = Some (length X)) as HjF.
    { apply lrun_last_index. rewrite last_index_app. unfold c. rewrite new_conf_sid.
      destruct (decide (s_sid s = s_sid s)); [reflexivity | congruence]. }
    assert (last_index (s_sid s) Y = Some (length X)) as HjY.
    { rewrite <- HjF. now apply last_index_sids. }
    destruct (last_index_lookup _ _ _ HjY) as (y & Hy & _).
    destruct (last_index_lookup _ _ _ HjF) as (f & Hf & _).
    assert (y = f) as ->.
    { specialize (Hpt (length X) y f Hy Hf).
      now rewrite (proj2 (lookup_ge_None X (length X)) (le_n _)) in Hpt. }
    rewrite (lstep_update Y n2 s (length X) f Hne HjY Hy). cbn [fst].
    split; [now rewrite length_insert|].
    split; [rewrite <- Hsids; apply (map_sid_insert _ _ f);
            [exact Hy | apply update_existing_sid]|].
    intros i y1 f1 Hy1 Hf1. destruct (decide (length X = i)) as [<-|Hne'].
    + rewrite list_lookup_insert_eq in Hy1 by (eapply lookup_lt_Some; eauto).
      injection Hy1 as <-.
      rewrite list_lookup_middle by reflexivity.
      assert (f1 = f) as -> by congruence.
      apply replay_new.
      apply (lrun_strengthens scraped (X ++ [c]) (n + 1)%Z (length X)); [|exact Hf].
      now rewrite list_lookup_middle.
    + rewrite list_lookup_insert_ne in Hy1 by exact Hne'.
      specialize (Hpt i y1 f1 Hy1 Hf1).
      destruct (decide (i < length X)) as [Hlt|Hge].
      * now rewrite lookup_app_l.
      * rewrite (proj2 (lookup_ge_None X i)) in Hpt by lia.
        rewrite (proj2 (lookup_ge_None (X ++ [c]) i)); [exact Hpt|].
        rewrite length_app. simpl. lia.
Qed.

Lemma lrun_again (scraped : list Entry) :
  forall (X Y : list Conf) (n n2 : Z),
    replay_inv X Y (fst (lrun (X, n) scraped)) ->
    fst (lrun (Y, n2) scraped) = fst (lrun (X, n) scraped).
Proof.
  induction scraped as [|s scraped IH]; intros X Y n n2 H.
  - now apply replay_inv_end.
  - change (lrun (X, n) (s :: scraped)) with (lrun (lstep (X, n) s) scraped) in *.
    change (lrun (Y, n2) (s :: scraped)) with (lrun (lstep (Y, n2) s) scraped).
    pose proof (replay_inv_step X Y n n2 s scraped H) as H1.
    destruct (lstep (X, n) s) as [X1 n1]. destruct (lstep (Y, n2) s) as [Y1 n3].
    now apply IH.
Qed.

(** C1. Merging the batch a second time into the store that the first merge
    returned changes nothing: the two stores are equal, record for record
    and field for field, whatever the store and the batch hold (entries
    without sid, several entries under one sid, sids shared by several
    records). *)
Theorem merge_idempotent (existing : list Conf) (scraped : list Entry) :
  merge_scraped_into_existing (merge_scraped_into_existing existing scraped) scraped
  = merge_scraped_into_existing existing scraped.
Proof.
  rewrite (merge_as_lrun existing scraped).
  rewrite merge_as_lrun.
  apply lrun_again.
  split; [reflexivity | split; [reflexivity|]].
  intros i y f Hy Hf. assert (y = f) as -> by congruence.
  destruct (existing !! i); [apply replay_rel_final | reflexivity].
Qed.

(** ** The invariants of the store *)










(** ** C9: the store file at startup *)

(** C9 (counterexample). With no store file, the default run ends with
    status 0 and writes a store, and the deadlines-only run ends with
    status 0 as well: a missing file is read as the empty store. *)
Lemma missing_store_is_not_fatal :
  main no_flag (offline Missing) = {| exit_code := 0; written := [[]] |} /\
  main {| new_only := false; deadlines_only := true; list_only := false |} (offline Missing)
    = {| exit_code := 0; written := [] |}.
Proof. split; vm_compute; reflexivity. Qed.

Lemma scrape_all_listings_store (f : store_file) (w : env) :
  scrape_all_listings (with_store f w) = scrape_all_listings w.
Proof. reflexivity. Qed.

Lemma scrape_detail_page_store (f : store_file) (w : env) (url : string) :
  scrape_detail_page (with_store f w) url = scrape_detail_page w url.
Proof. reflexivity. Qed.

Lemma fetch_new_deadlines_store (f : store_file) (w : env) (l : list Entry) :
  fetch_new_deadlines (with_store f w) l = fetch_new_deadlines w l.
Proof.
  induction l as [|c l IH]; simpl; [reflexivity|].
  unfold scrape_deadline_from_page. rewrite scrape_detail_page_store, IH. reflexivity.
Qed.

Lemma check_tbd_store (f : store_file) (w : env) (l : list Conf) :
  check_tbd (with_store f w) l = check_tbd w l.
Proof.
  induction l as [|c l IH]; simpl; [reflexivity|].
  unfold scrape_deadline_from_page. rewrite scrape_detail_page_store, IH. reflexivity.
Qed.

Lemma visit_all_store (f : store_file) (w : env) (m : gmap string string)
    (sids : list string) :
  forall st, visit_all (with_store f w) m st sids = visit_all w m st sids.
Proof.
  induction sids as [|sid sids IH]; intros st; simpl; [reflexivity|].
  unfold visit. destruct st as [seen existing].
  destruct (m !! sid) as [url|]; [|apply IH].
  destruct (negb (Py.truthy url)); [apply IH|].
  rewrite scrape_detail_page_store.
  destruct (scrape_detail_page w url) as [r|e]; [|reflexivity].
  cbn [bind]. destruct r.1 as [dl|], r.2 as [[cs cd]|];
    repeat match goal with |- context [if ?b then _ else _] => destruct b end;
    cbn [bind]; apply IH.
Qed.

(** C9 (amended). In every run mode, a store file that is not valid JSON
    ends the program with a non-zero status before anything is written; a
    missing store file is not an error: the run proceeds exactly as on a
    file that holds the empty list. *)
Theorem corrupt_store_is_fatal :
  (forall (a : args) (w : env),
      store w = Corrupt ->
      exit_code (main a w) = 1%Z /\ written (main a w) = []) /\
  (forall (a : args) (w : env),
      store w = Missing -> main a w = main a (with_store (Stored []) w)).
Proof.
  split.
  - intros [n d l] w Hs.
    unfold main, run_new_only, run_deadlines_only, run_list_only, run_full_scrape,
      io_bind, import_playwright, load_existing_json, io_raise, io_ret.
    rewrite Hs. cbn [new_only deadlines_only list_only].
    destruct n, d, l, (playwright_installed w); split; reflexivity.
  - intros [n d l] w Hs.
    unfold main, run_new_only, run_deadlines_only, run_list_only, run_full_scrape,
      io_bind, import_playwright, load_existing_json, io_raise, io_ret.
    rewrite Hs. cbn [new_only deadlines_only list_only with_store store playwright_installed].
    rewrite !scrape_all_listings_store, ?fetch_new_deadlines_store, ?check_tbd_store,
      ?visit_all_store.
    destruct n, d, l, (playwright_installed w); reflexivity.
Qed.

(** A corrupt file stops the full run and the list-only run; a missing one
    is read like an empty list. *)
Lemma corrupt_store_is_fatal_witness :
  (exit_code (main no_flag (offline Corrupt)) = 1%Z /\
   written (main no_flag (offline Corrupt)) = []) /\
  main no_flag (offline Missing) = main no_flag (with_store (Stored []) (offline Missing)).
Proof.
  destruct corrupt_store_is_fatal as (Hcorrupt & Hmissing).
  split.
  - apply (Hcorrupt no_flag (offline Corrupt)). reflexivity.
  - apply (Hmissing no_flag (offline Missing)). reflexivity.
Defined.

(** ** C3, C4, C7: the cascades *)

Lemma patterns_well_formed :
  forallb (fun p => Re.well_formed (Re.compile p))
          (DEADLINE_PATTERNS ++ NO_YEAR_PATTERNS ++ CONF_DATE_PATTERNS) = true.
Proof. vm_compute; reflexivity. Qed.



(** C3 (counterexample). The same text read on a day of 2026 and on a day
    of 2027 gives two different deadlines: the function, whose only argument
    in the source is the text, reads the year from the wall clock. *)
Lemma deadline_depends_on_wall_clock :
  extract_deadline_from_text (on_year 2026) "deadline is March 3" = Ok (Some "2026-03-03") /\
  extract_deadline_from_text (on_year 2027) "deadline is March 3" = Ok (Some "2027-03-03").
Proof. split; vm_compute; reflexivity. Qed.

(** C3 (amended). Deadline extraction is a function of the page text and of
    the year that the wall clock shows inside the function: two days of the
    same year give the same result, and when the year-bearing cascade
    returns a date or raises, the clock plays no part at all.
    Conference-date extraction reads no clock: two worlds that show the
    same page give the same conference date, whatever day it is. *)
Theorem extraction_determined_by_text_and_clock_year :
  (forall (text : string) (t1 t2 : date),
      year t1 = year t2 ->
      extract_deadline_from_text t1 text = extract_deadline_from_text t2 text) /\
  (forall (text : string) (t1 t2 : date),
      year_pass DEADLINE_PATTERNS text <> Ok None ->
      extract_deadline_from_text t1 text = extract_deadline_from_text t2 text) /\
  (forall (w1 w2 : env) (url : string),
      page_text w1 url = page_text w2 url ->
      (r <- scrape_detail_page w1 url ;; Ok (snd r)) =
      (r <- scrape_detail_page w2 url ;; Ok (snd r))).
Proof.
  split; [|split].
  - intros text t1 t2 Hy. unfold extract_deadline_from_text. now rewrite Hy.
  - intros text t1 t2 H. unfold extract_deadline_from_text.
    destruct (year_pass DEADLINE_PATTERNS text) as [[d|]|e]; cbn [bind];
      [reflexivity | congruence | reflexivity].
  - intros w1 w2 url H. unfold scrape_detail_page. rewrite H.
    destruct (page_text w2 url) as [text|]; [|reflexivity].
    unfold extract_deadline_from_text.
    generalize (extract_conf_date_from_text text) as c.
    generalize (no_year_pass NO_YEAR_PATTERNS (year (today w1)) text) as n1.
    generalize (no_year_pass NO_YEAR_PATTERNS (year (today w2)) text) as n2.
    generalize (year_pass DEADLINE_PATTERNS text) as y.
    intros [[d|]|e] n2 n1 [c|e']; reflexivity.
Qed.

(** Two days of 2026 on the year-less text, two years on a text with its
    year, and two worlds that differ in the clock only. *)
Lemma extraction_determined_by_text_and_clock_year_witness :
  extract_deadline_from_text {| year := 2026; month := 1; day := 1 |} "deadline is March 3" =
  extract_deadline_from_text {| year := 2026; month := 12; day := 31 |} "deadline is March 3" /\
  extract_deadline_from_text (on_year 2026) "Submission Deadline: February 25, 2026" =
  extract_deadline_from_text (on_year 2031) "Submission Deadline: February 25, 2026" /\
  (r <- scrape_detail_page
          (mkEnv true Missing (on_year 2026) (fun _ => None)
                 (fun _ => Some "The conference will be held on July 11, 2026")) "u" ;;
   Ok (snd r)) =
  (r <- scrape_detail_page
          (mkEnv true Missing (on_year 2031) (fun _ => None)
                 (fun _ => Some "The conference will be held on July 11, 2026")) "u" ;;
   Ok (snd r)).
Proof.
  destruct extraction_determined_by_text_and_clock_year as (Hyear & Hfirst & Hconf).
  split; [|split].
  - apply (Hyear "deadline is March 3"). reflexivity.
  - apply (Hfirst "Submission Deadline: February 25, 2026"). vm_compute. discriminate.
  - apply (Hconf _ _ "u"). reflexivity.
Defined.

(** C4 (the code at the failing input). Read on a day of 2029, the text
    "deadline is March 3" gives "2029-03-03": the year-less cascade returns
    the year of the wall clock without the window check that the
    year-bearing cascade and the conference-date cascade make. *)
Theorem year_less_cascade_leaves_the_window :
  extract_deadline_from_text (on_year 2029) "deadline is March 3" = Ok (Some "2029-03-03") /\
  Py.int (Py.take 4 "2029-03-03") = Some 2029%Z /\
  in_window 2029 = false.
Proof. repeat split; vm_compute; reflexivity. Qed.

(** C7 (the code at the failing inputs). On the text of the example the
    year-bearing cascade finds nothing and the year-less cascade answers
    with the year of the clock: "2026-03-03" on a day of 2026, as the
    specification says. The year is never tried against the calendar or the
    window, though: on a day of 2027, "deadline is February 29" gives the
    impossible "2027-02-29" and not "2028-02-29"; on a day of 2029,
    "deadline is March 3" gives "2029-03-03" and not "2028-03-03". *)
Theorem year_less_cascade_takes_the_clock_year :
  year_pass DEADLINE_PATTERNS "deadline is March 3" = Ok None /\
  extract_deadline_from_text {| year := 2026; month := 1; day := 1 |} "deadline is March 3"
    = Ok (Some "2026-03-03") /\
  extract_deadline_from_text (on_year 2027) "deadline is February 29"
    = Ok (Some "2027-02-29") /\
  extract_deadline_from_text (on_year 2029) "deadline is March 3"
    = Ok (Some "2029-03-03").
Proof. repeat split; vm_compute; reflexivity. Qed.

(** ** The plausibility window of the year-bearing cascades *)



(** ** One write, at the end *)







(** ** Merges in sequence *)









(** ** The records that a merge appends *)





(** ** Countries *)








(** ** Well-formed records *)








(** ** Deduplication by sid *)








Lemma set_category_twice (u v : string) (e : Entry) :
  set_category u (set_category v e) = set_category u e.
Proof. reflexivity. Qed.













(** ** The runs *)










(** ** The new-only run *)









(** ** The deadlines-only run *)



(** ** Runs without network, runs without Playwright *)








(** ** What the parsers return *)

















(** ** Round trips *)













(** ** C6: the filter that a run applies to the listing entries *)

(** C6 (the code at the failing input). The only filter that a run applies
    to the entries of a listing page is the test against [skip_keywords] in
    [scrape_listing_page]: no entry that a listing scrape returns holds one
    of these keywords, and no safelist is consulted. The name
    "2026 Winter Finance Workshop for PhD Students" holds safelist phrases,
    and [is_non_conference], the function with the safelist, keeps it; but
    it holds the skip keyword "phd", so the listing scrape drops the entry
    and the full run on a listing of this one entry writes an empty store.
    "Postdoctoral Research Associate Position" is dropped as well, and
    "Summer School Workshop", which [is_non_conference] rejects, is kept. *)
Theorem listing_filter_has_no_safelist :
  (forall (w : env) (network_name : string) (network_id : Z),
      Forall (fun entry => any_in skip_keywords (Py.lower (s_name entry)) = false)
             (scrape_listing_page w network_name network_id)) /\
  any_in CONFERENCE_SAFELIST (Py.lower "2026 Winter Finance Workshop for PhD Students") = true /\
  is_non_conference "2026 Winter Finance Workshop for PhD Students" = false /\
  Py.contains "phd" (Py.lower "2026 Winter Finance Workshop for PhD Students") = true /\
  scrape_listing_page
    (listing_world [listed "12345" "2026 Winter Finance Workshop for PhD Students"])
    "Finance" 203 = [] /\
  main no_flag (listing_world [listed "12345" "2026 Winter Finance Workshop for PhD Students"])
    = {| exit_code := 0; written := [[]] |} /\
  scrape_listing_page
    (listing_world [listed "12345" "Postdoctoral Research Associate Position"])
    "Finance" 203 = [] /\
  is_non_conference "Summer School Workshop" = true /\
  scrape_listing_page (listing_world [listed "12345" "Summer School Workshop"]) "Finance" 203
    = [listed "12345" "Summer School Workshop"].
Proof.
  split.
  - intros w network_name network_id. unfold scrape_listing_page.
    destruct (page_entries w network_id) as [entries|]; [|constructor].
    apply List.Forall_forall. intros entry H.
    apply in_map_iff in H. destruct H as (raw & <- & H).
    apply filter_In in H. destruct H as [_ H].
    apply negb_true_iff in H. exact H.
  - repeat split; vm_compute; reflexivity.
Qed.
